(** * mini_mem_profiler: a shallow embedding of [mini_profiler.py]

    The module wraps three collaborators it does not own: the operating
    system's memory query ([psutil]), the wall clock ([time.time]) and the
    sampling loop of [memory_profiler.memory_usage].  Their answers are read
    from an environment [Env], indexed by how many answers were consumed so
    far; everything the module itself does is written out below as state
    passing over a [World] (query counters, the object store holding the
    [BlockProfiler] instances, and the trace of effects).

    Numbers.  Every number the module computes with is a memory reading
    in megabytes (a byte count divided by 2^20), a clock reading, or a sum,
    difference or mean of those.  Python floats are embedded as exact
    rationals [Q]; rounding of binary floating point is not part of the
    model. *)

From Stdlib Require Import QArith Lqa Ascii String List ZArith Lia Bool.
From stdpp Require Import base list.
Import ListNotations.
Local Open Scope string_scope.
Local Set Warnings "-register-all".

(* ================================================================== *)
(** ** Python values and exceptions *)

(** The values that flow through the profiler: [None], numbers, strings,
    tuples, lists and dictionaries (insertion ordered, string keys). *)
Inductive value : Type :=
| VNone
| VNum (q : Q)
| VStr (s : string)
| VTuple (items : list value)
| VList (items : list value)
| VDict (entries : list (string * value)).

(** Exceptions.  [TypeError], [ValueError], [ZeroDivisionError],
    [IndexError] and [AttributeError] are the interpreter's own;
    [OSQueryError] stands for [psutil.Error] and its subclasses
    (AccessDenied, NoSuchProcess, ZombieProcess), carrying the cause the
    operating system reported; [WorkFailure] is any exception object raised
    by wrapped user code, identified by its class and message. *)
Inductive exn : Type :=
| TypeError
| ValueError
| ZeroDivisionError
| IndexError
| AttributeError
| OSQueryError (cause : string)
| WorkFailure (cls : string) (msg : string).

Inductive result (A : Type) : Type :=
| Ok (a : A)
| Err (e : exn).
Arguments Ok {A} a.
Arguments Err {A} e.

Definition is_ok {A : Type} (r : result A) : bool :=
  match r with Ok _ => true | Err _ => false end.

(* ------------------------------------------------------------------ *)
(** *** Built-in operations, as far as the module uses them *)

(** [bool(v)]: the truth value the [with] statement takes of what
    [__exit__] returns. *)
Definition py_truthy (v : value) : bool :=
  match v with
  | VNone => false
  | VNum q => negb (Qeq_bool q 0)
  | VStr s => negb (String.eqb s "")
  | VTuple items => negb (Nat.eqb (length items) 0)
  | VList items => negb (Nat.eqb (length items) 0)
  | VDict entries => negb (Nat.eqb (length entries) 0)
  end.

(** [d[key]]: the dictionaries built in this module are literals with
    distinct keys, so the first binding found is the binding. *)
Fixpoint assoc_get (key : string) (entries : list (string * value)) : option value :=
  match entries with
  | [] => None
  | (k, v) :: rest => if String.eqb k key then Some v else assoc_get key rest
  end.

Definition dict_get (key : string) (d : value) : option value :=
  match d with
  | VDict entries => assoc_get key entries
  | _ => None
  end.

(** [a == b]. *)
Fixpoint py_eq (a b : value) {struct a} : bool :=
  let fix seq_eq (xs ys : list value) {struct xs} : bool :=
    match xs, ys with
    | [], [] => true
    | x :: xs', y :: ys' => py_eq x y && seq_eq xs' ys'
    | _, _ => false
    end in
  let fix entries_in (d other : list (string * value)) {struct d} : bool :=
    match d with
    | [] => true
    | (k, v) :: d' =>
        match assoc_get k other with
        | Some v' => py_eq v v' && entries_in d' other
        | None => false
        end
    end in
  match a, b with
  | VNone, VNone => true
  | VNum x, VNum y => Qeq_bool x y
  | VStr s, VStr t => String.eqb s t
  | VTuple xs, VTuple ys => seq_eq xs ys
  | VList xs, VList ys => seq_eq xs ys
  | VDict d1, VDict d2 =>
      Nat.eqb (length d1) (length d2) && entries_in d1 d2
  | _, _ => false
  end.

(** [a > b]: numbers by value, strings by code point, tuples and lists
    lexicographically (first position where the items differ decides,
    otherwise the longer one is greater); anything else is unorderable. *)
Fixpoint py_gt (a b : value) {struct a} : result bool :=
  let fix seq_gt (xs ys : list value) {struct xs} : result bool :=
    match xs, ys with
    | [], _ => Ok false
    | _ :: _, [] => Ok true
    | x :: xs', y :: ys' => if py_eq x y then seq_gt xs' ys' else py_gt x y
    end in
  match a, b with
  | VNum x, VNum y => Ok (negb (Qle_bool x y))
  | VStr s, VStr t => Ok (String.ltb t s)
  | VTuple xs, VTuple ys => seq_gt xs ys
  | VList xs, VList ys => seq_gt xs ys
  | _, _ => Err TypeError
  end.

(** [a + b], [a - b], [a / b]. *)
Definition py_add (a b : value) : result value :=
  match a, b with
  | VNum x, VNum y => Ok (VNum (x + y))
  | VStr s, VStr t => Ok (VStr (s ++ t))
  | VTuple xs, VTuple ys => Ok (VTuple (xs ++ ys))
  | VList xs, VList ys => Ok (VList (xs ++ ys))
  | _, _ => Err TypeError
  end.

Definition py_sub (a b : value) : result value :=
  match a, b with
  | VNum x, VNum y => Ok (VNum (x - y))
  | _, _ => Err TypeError
  end.

Definition py_div (a b : value) : result value :=
  match a, b with
  | VNum x, VNum y => if Qeq_bool y 0 then Err ZeroDivisionError else Ok (VNum (x / y))
  | _, _ => Err TypeError
  end.

(** [max(iterable)]: the first item is the candidate, every later item
    replaces it when it compares greater; an empty iterable is a
    [ValueError]. *)
Fixpoint max_from (current : value) (items : list value) : result value :=
  match items with
  | [] => Ok current
  | item :: rest =>
      match py_gt item current with
      | Ok true => max_from item rest
      | Ok false => max_from current rest
      | Err e => Err e
      end
  end.

Definition py_max (items : list value) : result value :=
  match items with
  | [] => Err ValueError
  | first :: rest => max_from first rest
  end.

(** [sum(iterable)]: left to right, starting from the integer 0. *)
Fixpoint sum_from (acc : value) (items : list value) : result value :=
  match items with
  | [] => Ok acc
  | item :: rest =>
      match py_add acc item with
      | Ok acc' => sum_from acc' rest
      | Err e => Err e
      end
  end.

Definition py_sum (items : list value) : result value := sum_from (VNum 0) items.

(** [len(t)] as a number. *)
Definition py_len (items : list value) : value :=
  VNum (inject_Z (Z.of_nat (length items))).

(** Indexing and slicing of a tuple given by its items:
    [t[0]], [t[-1]] and [t[:-1]]. *)
Definition py_first (items : list value) : result value :=
  match head items with Some v => Ok v | None => Err IndexError end.

Definition py_last (items : list value) : result value :=
  match last items with Some v => Ok v | None => Err IndexError end.

Definition py_but_last (items : list value) : list value := removelast items.

(** [f"{v:.2f}"]: only numbers accept the format; the rendering to two
    decimals is kept symbolic (the log line carries the number). *)
Definition format_2f (v : value) : result Q :=
  match v with
  | VNum q => Ok q
  | _ => Err TypeError
  end.

(* ================================================================== *)
(** ** The world: collaborators, object store, effects *)

(** What [psutil.Process().memory_info()] returns (bytes). *)
Record MemInfo : Type := mkMemInfo { rss : Z; vms : Z }.

(** A [logging.Logger], reduced to what [logger.info] depends on: whether
    the level configured in [MemoryProfiler.__init__] lets INFO through. *)
Record Logger : Type := mkLogger { enabled_for_info : bool }.

(** The messages handed to [logger.info]: fixed text, or text around a
    number rendered with [:.2f]. *)
Inductive LogLine : Type :=
| LogText (text : string)
| LogFixed2 (label : string) (number : Q) (suffix : string).

(** Effects, in the order they happen. *)
Inductive Event : Type :=
| EvMemoryInfo                        (* psutil: process.memory_info() *)
| EvMemoryPercent                     (* psutil: process.memory_percent() *)
| EvTime                              (* time.time() *)
| EvMemoryUsage (interval : Q)        (* memory_profiler.memory_usage(...) entered *)
| EvCall (name : string) (args : list value) (kwargs : list (string * value))
                                      (* a wrapped function is invoked *)
| EvLog (line : LogLine).             (* a record emitted by logger.info *)

(** The state of a [BlockProfiler] instance (class defined inside
    [profile_block]). *)
Module BlockProfiler.
Record t : Type := mk {
  interval : Q;
  logger : Logger;
  start_mem : value;
  measurements : list value;
  start_time : value;
}.
End BlockProfiler.

Record World : Type := mkWorld {
  os_tick : nat;                      (* OS queries answered so far *)
  clock_tick : nat;                   (* clock readings taken so far *)
  usage_tick : nat;                   (* memory_usage runs completed so far *)
  heap : list BlockProfiler.t;        (* object store, addressed by position *)
  trace : list Event;                 (* effects so far, oldest first *)
}.

(** The collaborators' answers.  A query of the operating system either
    fails with a cause or yields its reading. *)
Record Env : Type := mkEnv {
  memory_info_at : nat -> string + MemInfo;
  memory_percent_at : nat -> string + Q;
  time_at : nat -> Q;
  usage_series_at : nat -> list value;
}.

(** Computations: state passing over the world, with exceptions. *)
Definition M (A : Type) : Type := World -> result A * World.

Definition ret {A : Type} (a : A) : M A := fun w => (Ok a, w).

Definition raise {A : Type} (e : exn) : M A := fun w => (Err e, w).

Definition bind {A B : Type} (c : M A) (k : A -> M B) : M B :=
  fun w =>
    match c w with
    | (Ok a, w') => k a w'
    | (Err e, w') => (Err e, w')
    end.

Definition lift {A : Type} (r : result A) : M A := fun w => (r, w).

Declare Scope py_scope.
Delimit Scope py_scope with py.
Notation "x <- c ;; k" := (bind c (fun x => k))
  (at level 100, c at next level, right associativity) : py_scope.
Notation "c ;; k" := (bind c (fun _ => k))
  (at level 100, right associativity) : py_scope.
Local Open Scope py_scope.

Definition emit (ev : Event) : M unit :=
  fun w => (Ok tt, mkWorld (os_tick w) (clock_tick w) (usage_tick w) (heap w)
                           (trace w ++ [ev])).

Definition with_heap (h : list BlockProfiler.t) (w : World) : World :=
  mkWorld (os_tick w) (clock_tick w) (usage_tick w) h (trace w).

(** Megabytes of a byte count: [n / 1024 / 1024]. *)
Definition megabytes (n : Z) : Q := inject_Z n / 1024 / 1024.

(** A function object: its [__name__] and what calling it does. *)
Record Func : Type := mkFunc {
  __name__ : string;
  __call__ : list value -> list (string * value) -> M value;
}.

(** Calling a wrapped function; the call is noted in the trace. *)
Definition call (f : Func) (args : list value) (kwargs : list (string * value)) : M value :=
  emit (EvCall (__name__ f) args kwargs) ;;
  __call__ f args kwargs.

Section Collaborators.
Variable env : Env.

(** [psutil.Process().memory_info()] *)
Definition memory_info : M MemInfo :=
  fun w =>
    let w' := mkWorld (S (os_tick w)) (clock_tick w) (usage_tick w) (heap w)
                      (trace w ++ [EvMemoryInfo]) in
    match memory_info_at env (os_tick w) with
    | inl cause => (Err (OSQueryError cause), w')
    | inr info => (Ok info, w')
    end.

(** [process.memory_percent()] *)
Definition memory_percent : M Q :=
  fun w =>
    let w' := mkWorld (S (os_tick w)) (clock_tick w) (usage_tick w) (heap w)
                      (trace w ++ [EvMemoryPercent]) in
    match memory_percent_at env (os_tick w) with
    | inl cause => (Err (OSQueryError cause), w')
    | inr pct => (Ok pct, w')
    end.

(** [time.time()] *)
Definition time_time : M Q :=
  fun w =>
    (Ok (time_at env (clock_tick w)),
     mkWorld (os_tick w) (S (clock_tick w)) (usage_tick w) (heap w)
             (trace w ++ [EvTime])).

(** [memory_profiler.memory_usage((target, (), {}), interval=interval,
    timestamps=True, retval=True)].  The library is a third party; the
    embedding fixes of it only what [retval=True] promises, that the
    target is run, that its exception is the caller's, and that the
    tuple returned ends in the target's return value.  What precedes
    the return value in that tuple is the environment's choice; the
    library itself puts a single item there, the list of its samples
    ([library_series] below). *)
Definition memory_usage (target : M value) (interval : Q) : M (list value) :=
  emit (EvMemoryUsage interval) ;;
  returned <- target ;;
  fun w =>
    (Ok (usage_series_at env (usage_tick w) ++ [returned])%list,
     mkWorld (os_tick w) (clock_tick w) (S (usage_tick w)) (heap w) (trace w)).

End Collaborators.

(* ================================================================== *)
(** ** The module *)

(** A [MemoryProfiler] instance holds its logger. *)
Record MemoryProfiler : Type := mkMemoryProfiler { logger : Logger }.

(** [logger.info(line)] *)
Definition logger_info (lg : Logger) (line : LogLine) : M unit :=
  if enabled_for_info lg then emit (EvLog line) else ret tt.

(** [f"{'='*50}"] *)
Definition rule_line : string :=
  "==================================================".

Definition newline : string := String "010"%char "".

Section Profiler.
Variable env : Env.

(* ---------------------------------------------------------------- *)
(** *** [profile_function]: the decorator and its wrapper *)

Definition wrapper (self : MemoryProfiler) (interval : Q) (func : Func)
    (args : list value) (kwargs : list (string * value)) : M value :=
  (* Get initial memory state *)
  info <- memory_info env ;;
  let initial_mem := megabytes (rss info) in
  (* Profile the function *)
  start_time <- time_time env ;;
  let profile_target := call func args kwargs in
  (* Run the profiling *)
  result <- memory_usage env profile_target interval ;;
  (* Unpack results *)
  let mem_measurements := py_but_last result in
  timestamps <- lift (py_first result) ;;
  return_value <- lift (py_last result) ;;
  (* Calculate statistics *)
  max_mem <- lift (py_max mem_measurements) ;;
  total <- lift (py_sum mem_measurements) ;;
  avg_mem <- lift (py_div total (py_len mem_measurements)) ;;
  mem_diff <- lift (py_sub max_mem (VNum initial_mem)) ;;
  now <- time_time env ;;
  let duration := (now - start_time)%Q in
  (* Log results *)
  logger_info (logger self)
    (LogText (newline ++ "Memory Profile for " ++ __name__ func ++ ":")) ;;
  logger_info (logger self) (LogText rule_line) ;;
  logger_info (logger self) (LogFixed2 "Initial memory: " initial_mem " MB") ;;
  peak <- lift (format_2f max_mem) ;;
  logger_info (logger self) (LogFixed2 "Peak memory: " peak " MB") ;;
  avg <- lift (format_2f avg_mem) ;;
  logger_info (logger self) (LogFixed2 "Average memory: " avg " MB") ;;
  diff <- lift (format_2f mem_diff) ;;
  logger_info (logger self) (LogFixed2 "Memory increase: " diff " MB") ;;
  logger_info (logger self) (LogFixed2 "Duration: " duration " seconds") ;;
  let profile_data :=
    VDict [ ("initial_mem", VNum initial_mem);
            ("peak_mem", max_mem);
            ("avg_mem", avg_mem);
            ("mem_diff", mem_diff);
            ("duration", VNum duration);
            ("timestamps", timestamps);
            ("measurements", VTuple mem_measurements) ] in
  ret (VTuple [return_value; profile_data]).

(** [functools.wraps(func)] gives the wrapper the name of [func]. *)
Definition decorator (self : MemoryProfiler) (interval : Q) (func : Func) : Func :=
  mkFunc (__name__ func) (wrapper self interval func).

Definition profile_function (self : MemoryProfiler) (interval : Q) : M (Func -> Func) :=
  ret (decorator self interval).

(* ---------------------------------------------------------------- *)
(** *** [memory_snapshot] *)

Definition memory_snapshot (self : MemoryProfiler) : M value :=
  mem_info <- memory_info env ;;
  percent <- memory_percent env ;;
  ret (VDict [ ("rss", VNum (megabytes (rss mem_info)));
               ("vms", VNum (megabytes (vms mem_info)));
               ("percent", VNum percent) ]).

(* ---------------------------------------------------------------- *)
(** *** [profile_block]: the [BlockProfiler] context manager *)

(** Attribute access through a reference into the object store. *)
Definition getattrs (self : nat) : M BlockProfiler.t :=
  fun w =>
    match heap w !! self with
    | Some obj => (Ok obj, w)
    | None => (Err AttributeError, w)
    end.

Definition setattrs (self : nat) (f : BlockProfiler.t -> BlockProfiler.t) : M unit :=
  fun w =>
    match heap w !! self with
    | Some obj => (Ok tt, with_heap (<[self := f obj]> (heap w)) w)
    | None => (Err AttributeError, w)
    end.

Definition set_start_mem (v : value) (obj : BlockProfiler.t) : BlockProfiler.t :=
  BlockProfiler.mk (BlockProfiler.interval obj) (BlockProfiler.logger obj)
    v (BlockProfiler.measurements obj) (BlockProfiler.start_time obj).

Definition set_start_time (v : value) (obj : BlockProfiler.t) : BlockProfiler.t :=
  BlockProfiler.mk (BlockProfiler.interval obj) (BlockProfiler.logger obj)
    (BlockProfiler.start_mem obj) (BlockProfiler.measurements obj) v.

Definition __init__ (interval : Q) (lg : Logger) : BlockProfiler.t :=
  BlockProfiler.mk interval lg VNone [] VNone.

Definition __enter__ (self : nat) : M nat :=
  info <- memory_info env ;;
  setattrs self (set_start_mem (VNum (megabytes (rss info)))) ;;
  now <- time_time env ;;
  setattrs self (set_start_time (VNum now)) ;;
  ret self.

(** [exc] is the exception in flight when the block failed ([exc_type],
    [exc_val], [exc_tb] together), [None] when it did not; the method
    does not look at it. *)
Definition __exit__ (self : nat) (exc : option exn) : M value :=
  end_time <- time_time env ;;
  info <- memory_info env ;;
  let end_mem := megabytes (rss info) in
  obj <- getattrs self ;;
  duration <- lift (py_sub (VNum end_time) (BlockProfiler.start_time obj)) ;;
  mem_diff <- lift (py_sub (VNum end_mem) (BlockProfiler.start_mem obj)) ;;
  let lg := BlockProfiler.logger obj in
  logger_info lg (LogText (newline ++ "Memory Profile for code block:")) ;;
  logger_info lg (LogText rule_line) ;;
  initial <- lift (format_2f (BlockProfiler.start_mem obj)) ;;
  logger_info lg (LogFixed2 "Initial memory: " initial " MB") ;;
  logger_info lg (LogFixed2 "Final memory: " end_mem " MB") ;;
  diff <- lift (format_2f mem_diff) ;;
  logger_info lg (LogFixed2 "Memory increase: " diff " MB") ;;
  secs <- lift (format_2f duration) ;;
  logger_info lg (LogFixed2 "Duration: " secs " seconds") ;;
  ret (VDict [ ("start_mem", BlockProfiler.start_mem obj);
               ("end_mem", VNum end_mem);
               ("mem_diff", mem_diff);
               ("duration", duration) ]).

(** [profile_block] allocates the instance and returns the reference. *)
Definition profile_block (self : MemoryProfiler) (interval : Q) : M nat :=
  fun w =>
    (Ok (length (heap w)),
     with_heap (heap w ++ [__init__ interval (logger self)]) w).

(** [with manager as target: body], as the language defines it: enter;
    run the body; on normal completion call [__exit__(None, None, None)]
    and ignore what it returns; on an exception call [__exit__] with the
    exception and re-raise it only if the returned value is false. *)
Definition with_stmt (manager : nat) (body : nat -> M unit) : M unit :=
  fun w =>
    match __enter__ manager w with
    | (Err e, w1) => (Err e, w1)
    | (Ok target, w1) =>
        match body target w1 with
        | (Ok _, w2) =>
            match __exit__ manager None w2 with
            | (Ok _, w3) => (Ok tt, w3)
            | (Err e', w3) => (Err e', w3)
            end
        | (Err e, w2) =>
            match __exit__ manager (Some e) w2 with
            | (Ok suppress, w3) =>
                if py_truthy suppress then (Ok tt, w3) else (Err e, w3)
            | (Err e', w3) => (Err e', w3)
            end
        end
    end.

(** [with profiler.profile_block(interval) as block: body]. *)
Definition profiled_block (self : MemoryProfiler) (interval : Q)
    (body : nat -> M unit) : M unit :=
  manager <- profile_block self interval ;;
  with_stmt manager body.

End Profiler.

(* ------------------------------------------------------------------ *)
(** *** Vocabulary for statements about a run *)

(** A series of numeric readings, as Python values. *)
Definition numbers (ms : list Q) : list value := map VNum ms.

(** The world in which the wrapped function starts running when the
    wrapper is entered in [w]: one memory query, one clock reading and the
    entry into [memory_usage] have happened. *)
Definition target_start (interval : Q) (w : World) : World :=
  mkWorld (S (os_tick w)) (S (clock_tick w)) (usage_tick w) (heap w)
          (((trace w ++ [EvMemoryInfo]) ++ [EvTime]) ++ [EvMemoryUsage interval]).

(** Events of a trace that are queries of the operating system. *)
Definition is_os_query (ev : Event) : bool :=
  match ev with
  | EvMemoryInfo | EvMemoryPercent => true
  | _ => false
  end.

Definition is_log (ev : Event) : bool :=
  match ev with
  | EvLog _ => true
  | _ => false
  end.

(** The handle with another interval. *)
Definition set_interval (i : Q) (obj : BlockProfiler.t) : BlockProfiler.t :=
  BlockProfiler.mk i (BlockProfiler.logger obj) (BlockProfiler.start_mem obj)
    (BlockProfiler.measurements obj) (BlockProfiler.start_time obj).

(** The dictionary [__exit__] returns, from the two memory readings and
    the two clock readings. *)
Definition block_summary (start_mem end_mem start_time end_time : Q) : value :=
  VDict [ ("start_mem", VNum start_mem);
          ("end_mem", VNum end_mem);
          ("mem_diff", VNum (end_mem - start_mem));
          ("duration", VNum (end_time - start_time)) ].

(** The lines [__exit__] hands to the logger, and the records a logger
    emits for a list of lines. *)
Definition block_log_lines (start_mem end_mem start_time end_time : Q) : list LogLine :=
  [ LogText (newline ++ "Memory Profile for code block:");
    LogText rule_line;
    LogFixed2 "Initial memory: " start_mem " MB";
    LogFixed2 "Final memory: " end_mem " MB";
    LogFixed2 "Memory increase: " (end_mem - start_mem) " MB";
    LogFixed2 "Duration: " (end_time - start_time) " seconds" ].

Definition logged (lg : Logger) (lines : list LogLine) : list Event :=
  if enabled_for_info lg then map EvLog lines else [].

(** A computation that never writes the object store. *)
Definition keeps_store {A : Type} (c : M A) : Prop :=
  forall w, heap (snd (c w)) = heap w.

(* ------------------------------------------------------------------ *)
(** *** A concrete run, used to exercise the definitions *)

Module Sample.

Definition MB : Z := 1048576.

(** The operating system reports 100 MB resident on every query but
    the third, where access is denied; the clock advances by one
    second per reading; the sampler delivers three readings as three
    items of its own (a flat series, which the wrapper's arithmetic
    accepts; the library's own answer is [Library.env] below). *)
Definition env : Env :=
  mkEnv (fun n => if Nat.eqb n 2 then inl "AccessDenied"
                  else inr (mkMemInfo (100 * MB) (400 * MB)))
        (fun n => inr (5 # 2))
        (fun n => inject_Z (Z.of_nat n))
        (fun n => [VNum 100; VNum 130; VNum 110]).

Definition profiler : MemoryProfiler := mkMemoryProfiler (mkLogger true).

Definition quiet : MemoryProfiler := mkMemoryProfiler (mkLogger false).

Definition start : World := mkWorld 0 0 0 [] [].

(** [def answer(): return 42] *)
Definition answer : Func := mkFunc "answer" (fun _ _ => ret (VNum 42)).

(** [raise ValueError("boom")] *)
Definition boom : nat -> M unit := fun _ => raise (WorkFailure "ValueError" "boom").

(** [pass] *)
Definition pass : nat -> M unit := fun _ => ret tt.

(** The world after [profile_block(0.1)] and after entering the scope
    (the same under [env], [grown_150] and [grown_200] below, which
    agree on the first readings). *)
Definition allocated : World := snd (profile_block quiet (1 # 10) start).

Definition entered : World :=
  mkWorld 1 1 0
    [BlockProfiler.mk (1 # 10) (mkLogger false)
       (VNum (megabytes (100 * MB))) [] (VNum 0)]
    [EvMemoryInfo; EvTime].

(** The world in which [answer] has returned inside the wrapper. *)
Definition after_answer : World :=
  snd (call answer [] [] (target_start (1 # 10) start)).

(** A process that has grown to 150 MB (resp. 200 MB) by the second
    query, three (resp. five) seconds after the first clock reading. *)
Definition grown_150 : Env :=
  mkEnv (fun n => inr (mkMemInfo (if Nat.eqb n 0 then 100 * MB else 150 * MB) (400 * MB)))
        (fun n => inr (5 # 2))
        (fun n => if Nat.eqb n 0 then 0%Q else 3%Q)
        (fun n => []).

Definition grown_200 : Env :=
  mkEnv (fun n => inr (mkMemInfo (if Nat.eqb n 0 then 100 * MB else 200 * MB) (400 * MB)))
        (fun n => inr (5 # 2))
        (fun n => if Nat.eqb n 0 then 0%Q else 5%Q)
        (fun n => []).

End Sample.

(* ------------------------------------------------------------------ *)
(** *** The module logger and [MemoryProfiler.__init__] *)

(** [logging.getLogger(__name__)] is one object for the whole process:
    every [MemoryProfiler] instance holds a reference to it.  Of its
    state, [__init__] touches the level and the list of handlers. *)
Module Logging.
Record Handler : Type := mkHandler { format : string }.
Record State : Type := mkState { level : Z; handlers : list Handler }.
Definition INFO : Z := 20.
Definition setLevel (lvl : Z) (lg : State) : State := mkState lvl (handlers lg).
Definition addHandler (h : Handler) (lg : State) : State :=
  mkState (level lg) (handlers lg ++ [h]).
End Logging.

(** [MemoryProfiler.__init__(log_level)], as a change of the module
    logger: the level is set, and a stream handler with the module's
    format is added only when the logger has no handler yet. *)
Definition MemoryProfiler__init__ (log_level : Z) (lg : Logging.State) : Logging.State :=
  let lg1 := Logging.setLevel log_level lg in
  match Logging.handlers lg1 with
  | [] =>
      let handler := Logging.mkHandler "%(asctime)s - %(levelname)s - %(message)s" in
      Logging.addHandler handler lg1
  | _ :: _ => lg1
  end.

(* ------------------------------------------------------------------ *)
(** *** Further vocabulary and runs *)

Definition is_number (v : value) : bool :=
  match v with
  | VNum _ => true
  | _ => false
  end.

(** The world once [memory_info] has answered (or refused) in [w]. *)
Definition after_memory_info (w : World) : World :=
  mkWorld (S (os_tick w)) (clock_tick w) (usage_tick w) (heap w)
          (trace w ++ [EvMemoryInfo]).

(** The world once [__exit__] has read the clock and asked for the
    memory info in [w], before anything else. *)
Definition after_exit_readings (w : World) : World :=
  mkWorld (S (os_tick w)) (S (clock_tick w)) (usage_tick w) (heap w)
          (trace w ++ [EvTime; EvMemoryInfo]).

Module Demo.

(** An operating system that refuses every memory query. *)
Definition denied : Env :=
  mkEnv (fun n => inl "AccessDenied")
        (fun n => inl "AccessDenied")
        (fun n => inject_Z (Z.of_nat n))
        (fun n => [VNum 100]).

(** One that answers the first query and refuses from then on. *)
Definition denied_later : Env :=
  mkEnv (fun n => if Nat.eqb n 0 then inr (mkMemInfo (100 * Sample.MB) (400 * Sample.MB))
                  else inl "AccessDenied")
        (fun n => inl "AccessDenied")
        (fun n => inject_Z (Z.of_nat n))
        (fun n => [VNum 100]).

(** A sampler that delivers a reading that is not a number. *)
Definition mixed : Env :=
  mkEnv (fun n => inr (mkMemInfo (100 * Sample.MB) (400 * Sample.MB)))
        (fun n => inr (5 # 2))
        (fun n => inject_Z (Z.of_nat n))
        (fun n => [VNum 100; VStr "n/a"; VNum 110]).

(** [def failing(): raise RuntimeError("no")] *)
Definition failing : Func :=
  mkFunc "failing" (fun _ _ => raise (WorkFailure "RuntimeError" "no")).

(** The world in which [failing] has raised inside the wrapper. *)
Definition after_failing : World :=
  snd (call failing [] [] (target_start (1 # 10) Sample.start)).

(** A store with one handle that was entered before the run. *)
Definition busy : World :=
  mkWorld 0 0 0
    [BlockProfiler.mk (1 # 2) (mkLogger true) (VNum 7) [] (VNum 3)] [].

(** A store with that handle and a second, fresh one. *)
Definition crowded : World :=
  mkWorld 0 0 0
    [BlockProfiler.mk (1 # 2) (mkLogger true) (VNum 7) [] (VNum 3);
     BlockProfiler.mk (1 # 10) (mkLogger false) VNone [] VNone] [].

End Demo.

(* ------------------------------------------------------------------ *)
(** *** The sampler's own answer *)

(** Called with [timestamps=True] and [retval=True], [memory_usage]
    answers with the pair (list of (MiB, timestamp) pairs, return value).
    In the terms of [memory_usage] above, the series that precedes the
    return value has one item: the list of samples. *)
Definition sample_pair (s : Q * Q) : value := VTuple [VNum (fst s); VNum (snd s)].

Definition sample_list (samples : list (Q * Q)) : value :=
  VList (map sample_pair samples).

Definition library_series (samples : list (Q * Q)) : list value :=
  [sample_list samples].

(** The world in which the body of the wrapped function starts when the
    wrapper is entered in [w]: the memory was read, the clock was read,
    the sampler was entered and the call with the caller's arguments was
    made. *)
Definition work_start (interval : Q) (func : Func) (args : list value)
    (kwargs : list (string * value)) (w : World) : World :=
  mkWorld (S (os_tick w)) (S (clock_tick w)) (usage_tick w) (heap w)
          (trace w ++ [EvMemoryInfo; EvTime; EvMemoryUsage interval;
                       EvCall (__name__ func) args kwargs]).

Module Library.

(** 100 MB resident on every query; the sampler saw 100, 130 and 110 MiB
    at 0, 0.1 and 0.2 seconds. *)
Definition env : Env :=
  mkEnv (fun n => inr (mkMemInfo (100 * Sample.MB) (400 * Sample.MB)))
        (fun n => inr (5 # 2))
        (fun n => inject_Z (Z.of_nat n))
        (fun n => library_series [(100, 0); (130, 1 # 10); (110, 1 # 5)]%Q).

(** Work that is over at once: the sampler holds its first reading only. *)
Definition instant : Env :=
  mkEnv (fun n => inr (mkMemInfo (100 * Sample.MB) (400 * Sample.MB)))
        (fun n => inr (5 # 2))
        (fun n => inject_Z (Z.of_nat n))
        (fun n => library_series [(100, 0)]%Q).

(** [def double(x, scale=1): return 2 * x * scale], on numbers. *)
Definition double : Func :=
  mkFunc "double"
    (fun args kwargs =>
       match args with
       | [VNum x] =>
           match assoc_get "scale" kwargs with
           | Some (VNum k) => ret (VNum (2 * x * k)%Q)
           | Some _ => raise TypeError
           | None => ret (VNum (2 * x)%Q)
           end
       | _ => raise TypeError
       end).

(** The world in which [double(21, scale=1)] has returned inside the
    wrapper. *)
Definition after_double : World :=
  snd (__call__ double [VNum 21] [("scale", VNum 1)]
         (work_start (1 # 10) double [VNum 21] [("scale", VNum 1)] Sample.start)).

End Library.

(* ================================================================== *)
(** ** Running computations: equations for [bind] and the primitives *)

Lemma bind_ok {A B : Type} (c : M A) (k : A -> M B) (w w' : World) (a : A) :
  c w = (Ok a, w') -> bind c k w = k a w'.
Proof. intros H. unfold bind. rewrite H. reflexivity. Qed.

Lemma bind_err {A B : Type} (c : M A) (k : A -> M B) (w w' : World) (e : exn) :
  c w = (Err e, w') -> bind c k w = (Err e, w').
Proof. intros H. unfold bind. rewrite H. reflexivity. Qed.

Lemma bind_inv_ok {A B : Type} (c : M A) (k : A -> M B) (w w' : World) (b : B) :
  bind c k w = (Ok b, w') ->
  exists a w1, c w = (Ok a, w1) /\ k a w1 = (Ok b, w').
Proof.
  unfold bind. destruct (c w) as [[a | e] w1]; intros H.
  - exists a, w1. split; [reflexivity | exact H].
  - discriminate H.
Qed.

Lemma lift_inv_ok {A : Type} (r : result A) (w w' : World) (a : A) :
  lift r w = (Ok a, w') -> r = Ok a /\ w' = w.
Proof. unfold lift. intros H. inversion H. split; reflexivity. Qed.

Lemma memory_info_ok (env : Env) (w : World) (info : MemInfo) :
  memory_info_at env (os_tick w) = inr info ->
  memory_info env w =
    (Ok info, mkWorld (S (os_tick w)) (clock_tick w) (usage_tick w) (heap w)
                      (trace w ++ [EvMemoryInfo])).
Proof. intros H. unfold memory_info. rewrite H. reflexivity. Qed.

Lemma memory_info_err (env : Env) (w : World) (cause : string) :
  memory_info_at env (os_tick w) = inl cause ->
  memory_info env w =
    (Err (OSQueryError cause),
     mkWorld (S (os_tick w)) (clock_tick w) (usage_tick w) (heap w)
             (trace w ++ [EvMemoryInfo])).
Proof. intros H. unfold memory_info. rewrite H. reflexivity. Qed.

Lemma memory_usage_ok (env : Env) (target : M value) (interval : Q)
    (w w2 : World) (rv : value) :
  target (mkWorld (os_tick w) (clock_tick w) (usage_tick w) (heap w)
                  (trace w ++ [EvMemoryUsage interval])) = (Ok rv, w2) ->
  memory_usage env target interval w =
    (Ok (usage_series_at env (usage_tick w2) ++ [rv])%list,
     mkWorld (os_tick w2) (clock_tick w2) (S (usage_tick w2)) (heap w2) (trace w2)).
Proof.
  intros H. unfold memory_usage, bind, emit.
  rewrite H. reflexivity.
Qed.

Lemma logger_info_ok (lg : Logger) (line : LogLine) (w : World) :
  exists w', logger_info lg line w = (Ok tt, w') /\
             os_tick w' = os_tick w /\ clock_tick w' = clock_tick w /\
             usage_tick w' = usage_tick w /\ heap w' = heap w.
Proof.
  unfold logger_info. destruct (enabled_for_info lg).
  - eexists. split; [reflexivity | auto].
  - exists w. split; [reflexivity | auto].
Qed.

(* ------------------------------------------------------------------ *)
(** ** The built-ins on a series *)

Lemma py_max_empty : py_max [] = Err ValueError.
Proof. reflexivity. Qed.

(** A non-number in the series stops [sum] with a [TypeError], whatever
    the numbers before it. *)
Lemma sum_from_not_number (pre : list Q) (v : value) (post : list value) (acc : Q) :
  (forall q, v <> VNum q) ->
  sum_from (VNum acc) (numbers pre ++ v :: post) = Err TypeError.
Proof.
  intros Hv. revert acc. induction pre as [| m pre IH]; intros acc.
  - simpl. destruct v; try reflexivity. exfalso. apply (Hv q). reflexivity.
  - simpl. apply IH.
Qed.

Lemma py_but_last_snoc (series : list value) (rv : value) :
  py_but_last (series ++ [rv]) = series.
Proof. unfold py_but_last. apply removelast_last. Qed.

Lemma py_last_snoc (series : list value) (rv : value) :
  py_last (series ++ [rv]) = Ok rv.
Proof. unfold py_last. rewrite last_snoc. reflexivity. Qed.

Lemma py_first_snoc (s : value) (series : list value) (rv : value) :
  py_first ((s :: series) ++ [rv]) = Ok s.
Proof. reflexivity. Qed.

(* ================================================================== *)
(** ** The function-scope wrapper *)

Local Open Scope Q_scope.

(** Calling through [call] in the world the sampler prepared is calling
    the function's body in [work_start]. *)
Lemma call_at_target_start (interval : Q) (func : Func) (args : list value)
    (kwargs : list (string * value)) (w : World) :
  call func args kwargs (target_start interval w) =
    __call__ func args kwargs (work_start interval func args kwargs w).
Proof.
  unfold call, bind, emit, target_start, work_start.
  cbn [os_tick clock_tick usage_tick heap trace].
  rewrite <- !app_assoc. reflexivity.
Qed.

Lemma py_max_library_series (samples : list (Q * Q)) :
  py_max (library_series samples) = Ok (sample_list samples).
Proof. reflexivity. Qed.

Lemma py_sum_library_series (samples : list (Q * Q)) :
  py_sum (library_series samples) = Err TypeError.
Proof. reflexivity. Qed.

(** The wrapper on the sampler's own answer: [max] of the one-item
    series is the list of samples, and [sum] stops at [0 + list]. *)
Lemma wrapper_library_series (env : Env) (self : MemoryProfiler) (interval : Q)
    (func : Func) (args : list value) (kwargs : list (string * value))
    (w w2 : World) (info : MemInfo) (rv : value) (samples : list (Q * Q)) :
  memory_info_at env (os_tick w) = inr info ->
  __call__ func args kwargs (work_start interval func args kwargs w) = (Ok rv, w2) ->
  usage_series_at env (usage_tick w2) = library_series samples ->
  wrapper env self interval func args kwargs w =
    (Err TypeError,
     mkWorld (os_tick w2) (clock_tick w2) (S (usage_tick w2)) (heap w2) (trace w2)).
Proof.
  intros Hos Hwork Hseries.
  rewrite <- call_at_target_start in Hwork.
  unfold wrapper.
  rewrite (bind_ok _ _ _ _ _ (memory_info_ok env w info Hos)).
  erewrite bind_ok by reflexivity.
  erewrite bind_ok by (apply memory_usage_ok; exact Hwork).
  rewrite Hseries.
  do 3 (erewrite bind_ok by reflexivity).
  reflexivity.
Qed.

(** C6 (the code departs from it).  With the answer the sampler gives,
    calling the function that [profile_function(interval)] put in place of
    [func] returns no pair: whenever the initial memory query succeeds and
    [func], called with the caller's arguments, returns, the call raises
    [TypeError]. *)
Theorem wrapped_call_raises_TypeError
    (env : Env) (self : MemoryProfiler) (interval : Q) (func : Func)
    (args : list value) (kwargs : list (string * value))
    (w w2 : World) (info : MemInfo) (rv : value) (samples : list (Q * Q)) :
  memory_info_at env (os_tick w) = inr info ->
  __call__ func args kwargs (work_start interval func args kwargs w) = (Ok rv, w2) ->
  usage_series_at env (usage_tick w2) = library_series samples ->
  fst (__call__ (decorator env self interval func) args kwargs w) = Err TypeError /\
  forall (v : value) (w' : World),
    __call__ (decorator env self interval func) args kwargs w <> (Ok v, w').
Proof.
  intros Hos Hwork Hseries.
  change (__call__ (decorator env self interval func) args kwargs w)
    with (wrapper env self interval func args kwargs w).
  rewrite (wrapper_library_series env self interval func args kwargs w w2 info rv
             samples Hos Hwork Hseries).
  split; [reflexivity |]. intros v w' H. discriminate H.
Qed.

Lemma wrapped_call_raises_TypeError_witness :
  fst (__call__ (decorator Library.env Sample.profiler (1 # 10) Library.double)
                [VNum 21] [("scale", VNum 1)] Sample.start) = Err TypeError /\
  forall (v : value) (w' : World),
    __call__ (decorator Library.env Sample.profiler (1 # 10) Library.double)
             [VNum 21] [("scale", VNum 1)] Sample.start <> (Ok v, w').
Proof.
  apply (wrapped_call_raises_TypeError
           Library.env Sample.profiler (1 # 10) Library.double
           [VNum 21] [("scale", VNum 1)] Sample.start Library.after_double
           (mkMemInfo (100 * Sample.MB) (400 * Sample.MB)) (VNum (2 * 21 * 1))
           [(100, 0); (130, 1 # 10); (110, 1 # 5)]); reflexivity.
Defined.

(** C4 (the code departs from it).  With the answer the sampler gives,
    what [max(mem_measurements)] selects is the list of samples itself,
    not a reading: it cannot be subtracted from the initial reading, and
    the wrapper returns no summary in which initial and peak could be
    compared. *)
Theorem peak_is_the_sample_list
    (env : Env) (self : MemoryProfiler) (interval : Q) (func : Func)
    (args : list value) (kwargs : list (string * value))
    (w w2 : World) (info : MemInfo) (rv : value) (samples : list (Q * Q)) :
  memory_info_at env (os_tick w) = inr info ->
  __call__ func args kwargs (work_start interval func args kwargs w) = (Ok rv, w2) ->
  usage_series_at env (usage_tick w2) = library_series samples ->
  py_max (py_but_last (usage_series_at env (usage_tick w2) ++ [rv])) =
    Ok (sample_list samples) /\
  py_sub (sample_list samples) (VNum (megabytes (rss info))) = Err TypeError /\
  forall (v : value) (w' : World),
    wrapper env self interval func args kwargs w <> (Ok v, w').
Proof.
  intros Hos Hwork Hseries.
  split; [rewrite py_but_last_snoc, Hseries; reflexivity |].
  split; [reflexivity |].
  rewrite (wrapper_library_series env self interval func args kwargs w w2 info rv
             samples Hos Hwork Hseries).
  intros v w' H. discriminate H.
Qed.

Lemma peak_is_the_sample_list_witness :
  py_max (py_but_last
            (usage_series_at Library.env (usage_tick Library.after_double) ++
             [VNum (2 * 21 * 1)])) =
    Ok (sample_list [(100, 0); (130, 1 # 10); (110, 1 # 5)]) /\
  py_sub (sample_list [(100, 0); (130, 1 # 10); (110, 1 # 5)])
         (VNum (megabytes (100 * Sample.MB))) = Err TypeError /\
  forall (v : value) (w' : World),
    wrapper Library.env Sample.profiler (1 # 10) Library.double
            [VNum 21] [("scale", VNum 1)] Sample.start <> (Ok v, w').
Proof.
  apply (peak_is_the_sample_list
           Library.env Sample.profiler (1 # 10) Library.double
           [VNum 21] [("scale", VNum 1)] Sample.start Library.after_double
           (mkMemInfo (100 * Sample.MB) (400 * Sample.MB)) (VNum (2 * 21 * 1))
           [(100, 0); (130, 1 # 10); (110, 1 # 5)]); reflexivity.
Defined.

(** C5 (the code departs from it).  However few samples the sampler
    holds, none included, the measurements tuple has exactly one item, the
    list of samples: [max] is never taken over an empty series and the
    divisor [len(mem_measurements)] is 1, yet there is no fallback to the
    initial reading and no summary: [sum] raises [TypeError]. *)
Theorem short_run_gives_no_summary
    (env : Env) (self : MemoryProfiler) (interval : Q) (func : Func)
    (args : list value) (kwargs : list (string * value))
    (w w2 : World) (info : MemInfo) (rv : value) (samples : list (Q * Q)) :
  memory_info_at env (os_tick w) = inr info ->
  __call__ func args kwargs (work_start interval func args kwargs w) = (Ok rv, w2) ->
  usage_series_at env (usage_tick w2) = library_series samples ->
  py_but_last (usage_series_at env (usage_tick w2) ++ [rv]) = [sample_list samples] /\
  py_len (py_but_last (usage_series_at env (usage_tick w2) ++ [rv])) = VNum 1 /\
  py_max [sample_list samples] = Ok (sample_list samples) /\
  fst (wrapper env self interval func args kwargs w) = Err TypeError.
Proof.
  intros Hos Hwork Hseries.
  rewrite py_but_last_snoc, Hseries.
  split; [reflexivity |]. split; [reflexivity |]. split; [reflexivity |].
  rewrite (wrapper_library_series env self interval func args kwargs w w2 info rv
             samples Hos Hwork Hseries).
  reflexivity.
Qed.

Lemma short_run_gives_no_summary_witness :
  py_but_last (usage_series_at Library.instant (usage_tick Sample.after_answer) ++
               [VNum 42]) = [sample_list [(100, 0)]] /\
  py_len (py_but_last
            (usage_series_at Library.instant (usage_tick Sample.after_answer) ++
             [VNum 42])) = VNum 1 /\
  py_max [sample_list [(100, 0)]] = Ok (sample_list [(100, 0)]) /\
  fst (wrapper Library.instant Sample.profiler (1 # 10) Sample.answer [] []
               Sample.start) = Err TypeError.
Proof.
  apply (short_run_gives_no_summary
           Library.instant Sample.profiler (1 # 10) Sample.answer [] []
           Sample.start Sample.after_answer
           (mkMemInfo (100 * Sample.MB) (400 * Sample.MB)) (VNum 42)
           [(100, 0)]); reflexivity.
Defined.

(** C7 (the code departs from it).  With the answer the sampler gives,
    the average is never computed: [sum(mem_measurements)] adds the list
    of samples to the integer 0 and raises [TypeError], so no profile
    data with an "avg_mem" entry is ever returned. *)
Theorem average_is_never_computed
    (env : Env) (self : MemoryProfiler) (interval : Q) (func : Func)
    (args : list value) (kwargs : list (string * value))
    (w w2 : World) (info : MemInfo) (rv : value) (samples : list (Q * Q)) :
  memory_info_at env (os_tick w) = inr info ->
  __call__ func args kwargs (work_start interval func args kwargs w) = (Ok rv, w2) ->
  usage_series_at env (usage_tick w2) = library_series samples ->
  py_sum (py_but_last (usage_series_at env (usage_tick w2) ++ [rv])) = Err TypeError /\
  forall (rv' profile_data avg : value) (w' : World),
    wrapper env self interval func args kwargs w = (Ok (VTuple [rv'; profile_data]), w') ->
    dict_get "avg_mem" profile_data <> Some avg.
Proof.
  intros Hos Hwork Hseries.
  split; [rewrite py_but_last_snoc, Hseries; reflexivity |].
  rewrite (wrapper_library_series env self interval func args kwargs w w2 info rv
             samples Hos Hwork Hseries).
  intros rv' profile_data avg w' H. discriminate H.
Qed.

Lemma average_is_never_computed_witness :
  py_sum (py_but_last
            (usage_series_at Library.env (usage_tick Library.after_double) ++
             [VNum (2 * 21 * 1)])) = Err TypeError /\
  forall (rv' profile_data avg : value) (w' : World),
    wrapper Library.env Sample.profiler (1 # 10) Library.double
            [VNum 21] [("scale", VNum 1)] Sample.start =
      (Ok (VTuple [rv'; profile_data]), w') ->
    dict_get "avg_mem" profile_data <> Some avg.
Proof.
  apply (average_is_never_computed
           Library.env Sample.profiler (1 # 10) Library.double
           [VNum 21] [("scale", VNum 1)] Sample.start Library.after_double
           (mkMemInfo (100 * Sample.MB) (400 * Sample.MB)) (VNum (2 * 21 * 1))
           [(100, 0); (130, 1 # 10); (110, 1 # 5)]); reflexivity.
Defined.

(** C9 (the code departs from it).  With the answer the sampler gives,
    the unpacking makes [timestamps] and the only item of
    [mem_measurements] the same object, the whole list of (MiB, timestamp)
    pairs, but no profile data carrying them is returned: the call
    raises [TypeError]. *)
Theorem timestamps_is_the_sample_list
    (env : Env) (self : MemoryProfiler) (interval : Q) (func : Func)
    (args : list value) (kwargs : list (string * value))
    (w w2 : World) (info : MemInfo) (rv : value) (samples : list (Q * Q)) :
  memory_info_at env (os_tick w) = inr info ->
  __call__ func args kwargs (work_start interval func args kwargs w) = (Ok rv, w2) ->
  usage_series_at env (usage_tick w2) = library_series samples ->
  py_first (usage_series_at env (usage_tick w2) ++ [rv]) = Ok (sample_list samples) /\
  py_first (py_but_last (usage_series_at env (usage_tick w2) ++ [rv])) =
    Ok (sample_list samples) /\
  py_last (usage_series_at env (usage_tick w2) ++ [rv]) = Ok rv /\
  fst (wrapper env self interval func args kwargs w) = Err TypeError.
Proof.
  intros Hos Hwork Hseries.
  rewrite py_but_last_snoc, py_last_snoc, Hseries.
  split; [reflexivity |]. split; [reflexivity |]. split; [reflexivity |].
  rewrite (wrapper_library_series env self interval func args kwargs w w2 info rv
             samples Hos Hwork Hseries).
  reflexivity.
Qed.

Lemma timestamps_is_the_sample_list_witness :
  py_first (usage_series_at Library.env (usage_tick Library.after_double) ++
            [VNum (2 * 21 * 1)]) =
    Ok (sample_list [(100, 0); (130, 1 # 10); (110, 1 # 5)]) /\
  py_first (py_but_last
              (usage_series_at Library.env (usage_tick Library.after_double) ++
               [VNum (2 * 21 * 1)])) =
    Ok (sample_list [(100, 0); (130, 1 # 10); (110, 1 # 5)]) /\
  py_last (usage_series_at Library.env (usage_tick Library.after_double) ++
           [VNum (2 * 21 * 1)]) = Ok (VNum (2 * 21 * 1)) /\
  fst (wrapper Library.env Sample.profiler (1 # 10) Library.double
               [VNum 21] [("scale", VNum 1)] Sample.start) = Err TypeError.
Proof.
  apply (timestamps_is_the_sample_list
           Library.env Sample.profiler (1 # 10) Library.double
           [VNum 21] [("scale", VNum 1)] Sample.start Library.after_double
           (mkMemInfo (100 * Sample.MB) (400 * Sample.MB)) (VNum (2 * 21 * 1))
           [(100, 0); (130, 1 # 10); (110, 1 # 5)]); reflexivity.
Defined.

(* ================================================================== *)
(** ** The block-scope wrapper *)

Lemma profile_block_run (self : MemoryProfiler) (interval : Q) (w : World) :
  profile_block self interval w =
    (Ok (length (heap w)),
     with_heap (heap w ++ [BlockProfiler.mk interval (logger self) VNone [] VNone]) w).
Proof. reflexivity. Qed.

(** Entering: one memory query, one clock reading, both stored in the
    handle; nothing else of the handle changes. *)
Lemma enter_run (env : Env) (self : nat) (w : World) (obj : BlockProfiler.t)
    (info : MemInfo) :
  memory_info_at env (os_tick w) = inr info ->
  heap w !! self = Some obj ->
  __enter__ env self w =
    (Ok self,
     mkWorld (S (os_tick w)) (S (clock_tick w)) (usage_tick w)
       (<[self := BlockProfiler.mk (BlockProfiler.interval obj)
                    (BlockProfiler.logger obj)
                    (VNum (megabytes (rss info)))
                    (BlockProfiler.measurements obj)
                    (VNum (time_at env (clock_tick w)))]> (heap w))
       (trace w ++ [EvMemoryInfo; EvTime])).
Proof.
  intros Hos Hobj.
  pose proof (lookup_lt_Some _ _ _ Hobj) as Hlt.
  unfold __enter__.
  rewrite (bind_ok _ _ _ _ _ (memory_info_ok env w info Hos)).
  erewrite bind_ok
    by (unfold setattrs; cbn [heap]; rewrite Hobj; reflexivity).
  erewrite bind_ok by reflexivity.
  erewrite bind_ok
    by (unfold setattrs, with_heap; cbn [heap];
        rewrite (list_lookup_insert_eq _ _ _ Hlt); reflexivity).
  unfold ret, with_heap, set_start_time, set_start_mem.
  cbn [os_tick clock_tick usage_tick heap trace
       BlockProfiler.interval BlockProfiler.logger BlockProfiler.start_mem
       BlockProfiler.measurements BlockProfiler.start_time].
  rewrite list_insert_insert_eq, <- app_assoc. reflexivity.
Qed.

(** Leaving: one clock reading, one memory query, the log lines; the
    object store is not written. *)
Lemma exit_run (env : Env) (self : nat) (exc : option exn) (w : World)
    (obj : BlockProfiler.t) (info : MemInfo) (sm st : Q) :
  memory_info_at env (os_tick w) = inr info ->
  heap w !! self = Some obj ->
  BlockProfiler.start_mem obj = VNum sm ->
  BlockProfiler.start_time obj = VNum st ->
  __exit__ env self exc w =
    (Ok (block_summary sm (megabytes (rss info)) st (time_at env (clock_tick w))),
     mkWorld (S (os_tick w)) (S (clock_tick w)) (usage_tick w) (heap w)
       (trace w ++ [EvTime; EvMemoryInfo] ++
        logged (BlockProfiler.logger obj)
          (block_log_lines sm (megabytes (rss info)) st (time_at env (clock_tick w))))).
Proof.
  intros Hos Hobj Hsm Hst.
  unfold __exit__.
  erewrite bind_ok by reflexivity.
  erewrite bind_ok by (apply memory_info_ok; exact Hos).
  erewrite bind_ok by (unfold getattrs; cbn [heap]; rewrite Hobj; reflexivity).
  rewrite Hsm, Hst.
  do 2 (erewrite bind_ok by reflexivity).
  unfold logger_info, logged, block_summary, block_log_lines.
  destruct (enabled_for_info (BlockProfiler.logger obj));
    repeat (erewrite bind_ok by reflexivity);
    unfold ret; cbn [os_tick clock_tick usage_tick heap trace map];
    rewrite <- ?app_assoc; reflexivity.
Qed.

Lemma keeps_store_bind {A B : Type} (c : M A) (k : A -> M B) :
  keeps_store c -> (forall a, keeps_store (k a)) -> keeps_store (bind c k).
Proof.
  intros Hc Hk w. unfold bind. specialize (Hc w).
  destruct (c w) as [[a | e] w1]; simpl in Hc |- *.
  - rewrite Hk. exact Hc.
  - exact Hc.
Qed.

Lemma keeps_store_lift {A : Type} (r : result A) : keeps_store (lift r).
Proof. intros w. reflexivity. Qed.

Lemma keeps_store_ret {A : Type} (a : A) : keeps_store (ret a).
Proof. intros w. reflexivity. Qed.

Lemma keeps_store_time (env : Env) : keeps_store (time_time env).
Proof. intros w. reflexivity. Qed.

Lemma keeps_store_memory_info (env : Env) : keeps_store (memory_info env).
Proof.
  intros w. unfold memory_info.
  destruct (memory_info_at env (os_tick w)); reflexivity.
Qed.

Lemma keeps_store_getattrs (self : nat) : keeps_store (getattrs self).
Proof. intros w. unfold getattrs. destruct (heap w !! self); reflexivity. Qed.

Lemma keeps_store_logger_info (lg : Logger) (line : LogLine) :
  keeps_store (logger_info lg line).
Proof. intros w. unfold logger_info. destruct (enabled_for_info lg); reflexivity. Qed.

Create HintDb store.
#[local] Hint Resolve keeps_store_lift keeps_store_ret keeps_store_time
  keeps_store_memory_info keeps_store_getattrs keeps_store_logger_info : store.

(** [__exit__] never writes the object store, whatever its outcome. *)
Lemma exit_keeps_store (env : Env) (self : nat) (exc : option exn) :
  keeps_store (__exit__ env self exc).
Proof.
  unfold __exit__.
  repeat (apply keeps_store_bind; [auto with store | intros ?]).
  auto with store.
Qed.

(** What [__exit__] returns, when it returns, is a non-empty dictionary
    and therefore true. *)
Lemma exit_result_truthy (env : Env) (self : nat) (exc : option exn)
    (w w' : World) (r : value) :
  __exit__ env self exc w = (Ok r, w') -> py_truthy r = true.
Proof.
  unfold __exit__. intros H.
  repeat (apply bind_inv_ok in H as (? & ? & _ & H)).
  unfold ret in H. inversion H. reflexivity.
Qed.

(** The store after a [with] statement is the store as the body left it. *)
Lemma with_stmt_store (env : Env) (manager : nat) (body : nat -> M unit)
    (w w1 w2 : World) (target : nat) (out : result unit) :
  __enter__ env manager w = (Ok target, w1) ->
  body target w1 = (out, w2) ->
  heap (snd (with_stmt env manager body w)) = heap w2.
Proof.
  intros Henter Hbody. unfold with_stmt. rewrite Henter, Hbody.
  destruct out as [u | e].
  - pose proof (exit_keeps_store env manager None w2) as Hk.
    destruct (__exit__ env manager None w2) as [[r | e'] w3]; exact Hk.
  - pose proof (exit_keeps_store env manager (Some e) w2) as Hk.
    destruct (__exit__ env manager (Some e) w2) as [[r | e'] w3]; simpl in Hk.
    + destruct (py_truthy r); exact Hk.
    + exact Hk.
Qed.

(** C1 (the code departs from it).  When the block raises [e], the
    [with] statement ends either normally or with an exception raised by
    [__exit__] itself: [__exit__] returns a non-empty dictionary, which
    the statement reads as a request to suppress [e]. *)
Theorem block_error_never_reaches_caller
    (env : Env) (manager : nat) (body : nat -> M unit)
    (w w1 w2 : World) (target : nat) (e : exn) :
  __enter__ env manager w = (Ok target, w1) ->
  body target w1 = (Err e, w2) ->
  with_stmt env manager body w =
    match __exit__ env manager (Some e) w2 with
    | (Ok _, w3) => (Ok tt, w3)
    | (Err e', w3) => (Err e', w3)
    end.
Proof.
  intros Henter Hbody. unfold with_stmt. rewrite Henter, Hbody.
  destruct (__exit__ env manager (Some e) w2) as [[r | e'] w3] eqn:Hexit;
    [| reflexivity].
  rewrite (exit_result_truthy _ _ _ _ _ _ Hexit). reflexivity.
Qed.

Lemma block_error_never_reaches_caller_witness :
  fst (with_stmt Sample.env 0 Sample.boom Sample.allocated) = Ok tt.
Proof.
  rewrite (block_error_never_reaches_caller
             Sample.env 0 Sample.boom Sample.allocated Sample.entered
             Sample.entered 0%nat (WorkFailure "ValueError" "boom")
             eq_refl eq_refl).
  reflexivity.
Defined.

(** C3 (the code departs from it).  Two processes that differ only in
    what the exit readings are (150 MB after three seconds, 200 MB after
    five) leave the caller with the same statement value and the same
    world, handle included, whether the block passes or raises, although
    [__exit__] computed different summaries: with the logger silent, the
    summary is nowhere to be retrieved. *)
Theorem block_summary_not_retrievable :
  fst (__exit__ Sample.grown_150 0 None Sample.entered) =
    Ok (block_summary (megabytes (100 * Sample.MB)) (megabytes (150 * Sample.MB)) 0 3) /\
  fst (__exit__ Sample.grown_200 0 None Sample.entered) =
    Ok (block_summary (megabytes (100 * Sample.MB)) (megabytes (200 * Sample.MB)) 0 5) /\
  profiled_block Sample.grown_150 Sample.quiet (1 # 10) Sample.pass Sample.start =
    profiled_block Sample.grown_200 Sample.quiet (1 # 10) Sample.pass Sample.start /\
  profiled_block Sample.grown_150 Sample.quiet (1 # 10) Sample.boom Sample.start =
    profiled_block Sample.grown_200 Sample.quiet (1 # 10) Sample.boom Sample.start /\
  profiled_block Sample.grown_150 Sample.quiet (1 # 10) Sample.pass Sample.start =
    (Ok tt,
     mkWorld 2 2 0
       [BlockProfiler.mk (1 # 10) (mkLogger false)
          (VNum (megabytes (100 * Sample.MB))) [] (VNum 0)]
       [EvMemoryInfo; EvTime; EvTime; EvMemoryInfo]).
Proof. repeat split; reflexivity. Qed.

(** C10.  The block-scope wrapper samples nothing between entry and
    exit.  [profile_block] stores the interval and an empty measurements
    list; entering takes one memory reading and one clock reading; if the
    block leaves the handle as it found it, leaving takes one clock
    reading and one memory reading, writes nothing to the handle (the
    measurements list is still empty), never enters the sampler, and
    returns a summary made of the entry and exit readings alone, the same
    whatever interval the handle holds. *)
Theorem block_scope_takes_no_samples
    (env : Env) (self : MemoryProfiler) (interval : Q) (body : nat -> M unit)
    (w w0 w1 w2 : World) (manager : nat) (r1 : result nat) (out : result unit)
    (exc : option exn) (info1 info2 : MemInfo) :
  profile_block self interval w = (Ok manager, w0) ->
  memory_info_at env (os_tick w) = inr info1 ->
  __enter__ env manager w0 = (r1, w1) ->
  body manager w1 = (out, w2) ->
  heap w2 !! manager = heap w1 !! manager ->
  memory_info_at env (os_tick w2) = inr info2 ->
  let summary :=
    block_summary (megabytes (rss info1)) (megabytes (rss info2))
                  (time_at env (clock_tick w)) (time_at env (clock_tick w2)) in
  heap w0 !! manager = Some (BlockProfiler.mk interval (logger self) VNone [] VNone) /\
  trace w0 = trace w /\
  r1 = Ok manager /\
  trace w1 = (trace w ++ [EvMemoryInfo; EvTime])%list /\
  heap w1 !! manager =
    Some (BlockProfiler.mk interval (logger self) (VNum (megabytes (rss info1))) []
                           (VNum (time_at env (clock_tick w)))) /\
  (exists w3,
     __exit__ env manager exc w2 = (Ok summary, w3) /\
     heap w3 = heap w2 /\
     trace w3 =
       (trace w2 ++ [EvTime; EvMemoryInfo] ++
        logged (logger self)
          (block_log_lines (megabytes (rss info1)) (megabytes (rss info2))
             (time_at env (clock_tick w)) (time_at env (clock_tick w2))))%list) /\
  (forall other : Q,
     fst (__exit__ env manager exc (with_heap (set_interval other <$> heap w2) w2)) =
       Ok summary).
Proof.
  intros Hblock Hos1 Henter Hbody Hkeep Hos2 summary.
  rewrite profile_block_run in Hblock.
  injection Hblock as Hm Hw0. subst manager w0.
  set (manager := length (heap w)) in *.
  set (fresh := BlockProfiler.mk interval (logger self) VNone [] VNone) in *.
  set (w0 := with_heap (heap w ++ [fresh]) w) in *.
  assert (Hobj0 : heap w0 !! manager = Some fresh).
  { unfold w0, with_heap. cbn [heap]. apply list_lookup_middle. reflexivity. }
  rewrite (enter_run env manager w0 fresh info1 Hos1 Hobj0) in Henter.
  injection Henter as Hr1 Hw1. subst r1 w1.
  assert (Hobj1 : <[manager :=
                     BlockProfiler.mk interval (logger self)
                       (VNum (megabytes (rss info1))) []
                       (VNum (time_at env (clock_tick w)))]> (heap w0) !! manager =
                  Some (BlockProfiler.mk interval (logger self)
                          (VNum (megabytes (rss info1))) []
                          (VNum (time_at env (clock_tick w))))).
  { apply list_lookup_insert_eq. apply (lookup_lt_Some _ _ _ Hobj0). }
  cbn [heap trace BlockProfiler.interval BlockProfiler.logger
       BlockProfiler.measurements] in Hkeep |- *.
  change (clock_tick w0) with (clock_tick w) in *.
  assert (Hobj2 : heap w2 !! manager =
                  Some (BlockProfiler.mk interval (logger self)
                          (VNum (megabytes (rss info1))) []
                          (VNum (time_at env (clock_tick w)))))
    by (rewrite Hkeep; exact Hobj1).
  clear Hkeep. rename Hobj2 into Hkeep.
  split; [exact Hobj0 |].
  split; [reflexivity |].
  split; [reflexivity |].
  split; [reflexivity |].
  split; [exact Hobj1 |].
  split.
  - eexists. split; [| split].
    + apply (exit_run env manager exc w2 _ info2 _ _ Hos2 Hkeep); reflexivity.
    + reflexivity.
    + reflexivity.
  - intros other.
    erewrite (exit_run env manager exc (with_heap (set_interval other <$> heap w2) w2)
                (set_interval other _) info2 _ _ Hos2).
    + reflexivity.
    + unfold with_heap. cbn [heap]. rewrite list_lookup_fmap, Hkeep. reflexivity.
    + reflexivity.
    + reflexivity.
Qed.

Lemma block_scope_takes_no_samples_witness :
  let summary :=
    block_summary (megabytes (100 * Sample.MB)) (megabytes (150 * Sample.MB)) 0 3 in
  heap Sample.allocated !! 0%nat =
    Some (BlockProfiler.mk (1 # 10) (mkLogger false) VNone [] VNone) /\
  trace Sample.allocated = trace Sample.start /\
  Ok 0%nat = Ok 0%nat /\
  trace Sample.entered = (trace Sample.start ++ [EvMemoryInfo; EvTime])%list /\
  heap Sample.entered !! 0%nat =
    Some (BlockProfiler.mk (1 # 10) (mkLogger false)
            (VNum (megabytes (100 * Sample.MB))) [] (VNum 0)) /\
  (exists w3,
     __exit__ Sample.grown_150 0 None Sample.entered = (Ok summary, w3) /\
     heap w3 = heap Sample.entered /\
     trace w3 =
       (trace Sample.entered ++ [EvTime; EvMemoryInfo] ++
        logged (mkLogger false)
          (block_log_lines (megabytes (100 * Sample.MB)) (megabytes (150 * Sample.MB))
             0 3))%list) /\
  (forall other : Q,
     fst (__exit__ Sample.grown_150 0 None
            (with_heap (set_interval other <$> heap Sample.entered) Sample.entered)) =
       Ok summary).
Proof.
  apply (block_scope_takes_no_samples
           Sample.grown_150 Sample.quiet (1 # 10) Sample.pass
           Sample.start Sample.allocated Sample.entered Sample.entered
           0%nat (Ok 0%nat) (Ok tt) None
           (mkMemInfo (100 * Sample.MB) (400 * Sample.MB))
           (mkMemInfo (150 * Sample.MB) (400 * Sample.MB)));
    reflexivity.
Defined.

(* ================================================================== *)
(** ** Construction time, and the snapshot *)

(** C2, as stated, fails: with interval -1 and with interval 0 both
    factories return normally; no exception of any kind is raised. *)
Lemma nonpositive_interval_accepted_counterexample :
  -1 <= 0 /\ 0 <= 0 /\
  profile_function Sample.env Sample.profiler (-1) Sample.start =
    (Ok (decorator Sample.env Sample.profiler (-1)), Sample.start) /\
  profile_function Sample.env Sample.profiler 0 Sample.start =
    (Ok (decorator Sample.env Sample.profiler 0), Sample.start) /\
  fst (profile_block Sample.profiler (-1) Sample.start) = Ok 0%nat /\
  fst (profile_block Sample.profiler 0 Sample.start) = Ok 0%nat.
Proof.
  split; [vm_compute; discriminate |].
  split; [vm_compute; discriminate |].
  repeat split; reflexivity.
Qed.

(** C2, amended.  For every interval, positive or not, both factories
    return normally at construction time and run no wrapped work:
    [profile_function] returns the decorator and leaves the world as it
    was; [profile_block] returns a fresh handle that stores the interval
    as given, and changes nothing but the object store. *)
Theorem factories_accept_every_interval
    (env : Env) (self : MemoryProfiler) (interval : Q) (w : World) :
  profile_function env self interval w = (Ok (decorator env self interval), w) /\
  (forall func, __name__ (decorator env self interval func) = __name__ func) /\
  profile_block self interval w =
    (Ok (length (heap w)),
     mkWorld (os_tick w) (clock_tick w) (usage_tick w)
       (heap w ++ [BlockProfiler.mk interval (logger self) VNone [] VNone])
       (trace w)) /\
  heap (snd (profile_block self interval w)) !! length (heap w) =
    Some (BlockProfiler.mk interval (logger self) VNone [] VNone).
Proof.
  split; [reflexivity |].
  split; [reflexivity |].
  split; [reflexivity |].
  cbn [profile_block snd with_heap heap].
  apply list_lookup_middle. reflexivity.
Qed.


Example memory_snapshot_sample :
  memory_snapshot Sample.env Sample.profiler Sample.start =
    (Ok (VDict [ ("rss", VNum (megabytes (100 * Sample.MB)));
                 ("vms", VNum (megabytes (400 * Sample.MB)));
                 ("percent", VNum (5 # 2)) ]),
     mkWorld 2 0 0 [] [EvMemoryInfo; EvMemoryPercent]).
Proof. reflexivity. Qed.

Example memory_snapshot_denied :
  memory_snapshot Sample.env Sample.profiler (mkWorld 2 0 0 [] []) =
    (Err (OSQueryError "AccessDenied"), mkWorld 3 0 0 [] [EvMemoryInfo]).
Proof. reflexivity. Qed.

(* ================================================================== *)
(** ** When the wrapper returns at all *)

Lemma sum_from_ok_numbers (items : list value) (acc : Q) (v : value) :
  sum_from (VNum acc) items = Ok v -> exists ms, items = numbers ms.
Proof.
  revert acc. induction items as [| item rest IH]; intros acc H.
  - exists []. reflexivity.
  - simpl in H. destruct item as [| q | | | |]; try discriminate H.
    simpl in H. destruct (IH _ H) as [ms Hms].
    exists (q :: ms). rewrite Hms. reflexivity.
Qed.

Lemma memory_usage_inv_ok (env : Env) (target : M value) (interval : Q)
    (w w' : World) (result : list value) :
  memory_usage env target interval w = (Ok result, w') ->
  exists rv w2,
    target (mkWorld (os_tick w) (clock_tick w) (usage_tick w) (heap w)
                    (trace w ++ [EvMemoryUsage interval])) = (Ok rv, w2) /\
    result = (usage_series_at env (usage_tick w2) ++ [rv])%list.
Proof.
  unfold memory_usage, bind, emit. intros H.
  match type of H with
  | context [target ?w0] => destruct (target w0) as [[rv | e] w2]
  end; [| discriminate H].
  exists rv, w2. split; [reflexivity |]. inversion H. reflexivity.
Qed.

(** The wrapper returns only if the initial query succeeded, the work
    returned, and the sampler's series is a non-empty list of numbers:
    the conditions of the statements above are the only way to a
    summary. *)
Lemma wrapper_returns_only_on_numbers
    (env : Env) (self : MemoryProfiler) (interval : Q) (func : Func)
    (args : list value) (kwargs : list (string * value))
    (w w' : World) (v : value) :
  wrapper env self interval func args kwargs w = (Ok v, w') ->
  exists info rv w2 m ms,
    memory_info_at env (os_tick w) = inr info /\
    call func args kwargs (target_start interval w) = (Ok rv, w2) /\
    usage_series_at env (usage_tick w2) = numbers (m :: ms).
Proof.
  unfold wrapper. intros H.
  apply bind_inv_ok in H as (info & w1 & Hinfo & H).
  unfold memory_info in Hinfo.
  destruct (memory_info_at env (os_tick w)) as [cause | info'] eqn:Hos;
    [discriminate Hinfo |].
  injection Hinfo as Hi Hw1. subst info' w1.
  apply bind_inv_ok in H as (t0 & wt & Htime & H).
  unfold time_time in Htime. injection Htime as Ht Hwt. subst t0 wt.
  apply bind_inv_ok in H as (result & wu & Husage & H).
  apply memory_usage_inv_ok in Husage as (rv & w2 & Hcall & Hresult).
  apply bind_inv_ok in H as (ts & ? & _ & H).
  apply bind_inv_ok in H as (last_item & ? & _ & H).
  apply bind_inv_ok in H as (max_mem & ? & Hmax & H).
  apply bind_inv_ok in H as (total & ? & Hsum & H).
  apply lift_inv_ok in Hmax as [Hmax _].
  apply lift_inv_ok in Hsum as [Hsum _].
  subst result. rewrite py_but_last_snoc in Hmax, Hsum.
  apply sum_from_ok_numbers in Hsum as [series Hseries].
  exists info, rv, w2.
  destruct series as [| m ms].
  - rewrite Hseries in Hmax. discriminate Hmax.
  - exists m, ms. split; [reflexivity |]. split; [exact Hcall | exact Hseries].
Qed.

(** A series that packs all readings into one list, a single item that
    is not a number, stops the wrapper at [sum] with a [TypeError]. *)
Lemma wrapper_packed_series_TypeError
    (env : Env) (self : MemoryProfiler) (interval : Q) (func : Func)
    (args : list value) (kwargs : list (string * value))
    (w w2 : World) (info : MemInfo) (rv : value) (readings : list value) :
  memory_info_at env (os_tick w) = inr info ->
  call func args kwargs (target_start interval w) = (Ok rv, w2) ->
  usage_series_at env (usage_tick w2) = [VList readings] ->
  fst (wrapper env self interval func args kwargs w) = Err TypeError.
Proof.
  intros Hos Hcall Hseries.
  unfold wrapper.
  rewrite (bind_ok _ _ _ _ _ (memory_info_ok env w info Hos)).
  erewrite bind_ok by reflexivity.
  erewrite bind_ok by (apply memory_usage_ok; exact Hcall).
  rewrite Hseries.
  do 3 (erewrite bind_ok by reflexivity).
  reflexivity.
Qed.

(* ================================================================== *)
(** ** More on the function-scope wrapper *)

(** X1.  If the wrapped function raises, the wrapped call raises the
    same exception: nothing is logged, no summary is built, and the world
    is left as the function left it. *)
Theorem work_failure_propagates
    (env : Env) (self : MemoryProfiler) (interval : Q) (func : Func)
    (args : list value) (kwargs : list (string * value))
    (w w2 : World) (info : MemInfo) (e : exn) :
  memory_info_at env (os_tick w) = inr info ->
  call func args kwargs (target_start interval w) = (Err e, w2) ->
  wrapper env self interval func args kwargs w = (Err e, w2).
Proof.
  intros Hos Hcall.
  unfold wrapper.
  rewrite (bind_ok _ _ _ _ _ (memory_info_ok env w info Hos)).
  erewrite bind_ok by reflexivity.
  apply bind_err.
  unfold memory_usage, bind, emit.
  cbn [os_tick clock_tick usage_tick heap trace].
  unfold target_start in Hcall. rewrite Hcall. reflexivity.
Qed.

Lemma work_failure_propagates_witness :
  wrapper Sample.env Sample.profiler (1 # 10) Demo.failing [] [] Sample.start =
    (Err (WorkFailure "RuntimeError" "no"), Demo.after_failing).
Proof.
  apply (work_failure_propagates
           Sample.env Sample.profiler (1 # 10) Demo.failing [] []
           Sample.start Demo.after_failing
           (mkMemInfo (100 * Sample.MB) (400 * Sample.MB))); reflexivity.
Defined.

(** X2.  If the initial memory query fails, the wrapped call raises that
    [OSQueryError] at once: the clock is not read, the sampler is not
    entered and the wrapped function is not called. *)
Theorem initial_query_failure_skips_work
    (env : Env) (self : MemoryProfiler) (interval : Q) (func : Func)
    (args : list value) (kwargs : list (string * value))
    (w : World) (cause : string) :
  memory_info_at env (os_tick w) = inl cause ->
  wrapper env self interval func args kwargs w =
    (Err (OSQueryError cause), after_memory_info w).
Proof.
  intros Hos. unfold wrapper.
  apply bind_err. apply memory_info_err. exact Hos.
Qed.

Lemma initial_query_failure_skips_work_witness :
  wrapper Demo.denied Sample.profiler (1 # 10) Sample.answer [] [] Sample.start =
    (Err (OSQueryError "AccessDenied"), after_memory_info Sample.start).
Proof.
  apply (initial_query_failure_skips_work
           Demo.denied Sample.profiler (1 # 10) Sample.answer [] []
           Sample.start "AccessDenied"); reflexivity.
Defined.



(** X5.  What a wrapped call returns or raises does not depend on the
    profiler's logger; nor do the counters and the object store it leaves
    behind.  Logging only adds records to the trace: with the log records
    left out, the traces are the same. *)
Theorem wrapper_value_ignores_logger
    (env : Env) (self1 self2 : MemoryProfiler) (interval : Q) (func : Func)
    (args : list value) (kwargs : list (string * value)) (w : World) :
  let run1 := wrapper env self1 interval func args kwargs w in
  let run2 := wrapper env self2 interval func args kwargs w in
  fst run1 = fst run2 /\
  os_tick (snd run1) = os_tick (snd run2) /\
  clock_tick (snd run1) = clock_tick (snd run2) /\
  usage_tick (snd run1) = usage_tick (snd run2) /\
  heap (snd run1) = heap (snd run2) /\
  List.filter (fun ev => negb (is_log ev)) (trace (snd run1)) =
    List.filter (fun ev => negb (is_log ev)) (trace (snd run2)).
Proof.
  cbv zeta. unfold wrapper, bind, lift.
  destruct (memory_info env w) as [[info | e] w1]; [| repeat split].
  destruct (time_time env w1) as [[t0 | e] wt]; [| repeat split].
  destruct (memory_usage env (call func args kwargs) interval wt)
    as [[result | e] wu]; [| repeat split].
  destruct (py_first result) as [ts | e]; [| repeat split].
  destruct (py_last result) as [rv | e]; [| repeat split].
  destruct (py_max (py_but_last result)) as [max_mem | e]; [| repeat split].
  destruct (py_sum (py_but_last result)) as [total | e]; [| repeat split].
  destruct (py_div total (py_len (py_but_last result))) as [avg_mem | e];
    [| repeat split].
  destruct (py_sub max_mem (VNum (megabytes (rss info)))) as [mem_diff | e];
    [| repeat split].
  destruct (time_time env wu) as [[t1 | e] wv]; [| repeat split].
  generalize (megabytes (rss info)) (t1 - t0). intros initial duration.
  generalize (LogText (newline ++ "Memory Profile for " ++ __name__ func ++ ":")).
  intros header.
  destruct (format_2f max_mem) as [peak | e],
           (format_2f avg_mem) as [avg | e'],
           (format_2f mem_diff) as [diff | e''];
    unfold logger_info, emit, ret;
    destruct (enabled_for_info (logger self1)), (enabled_for_info (logger self2));
    cbv beta iota delta [fst snd os_tick clock_tick usage_tick heap trace];
    (split; [reflexivity | split; [reflexivity | split; [reflexivity |
       split; [reflexivity | split; [reflexivity |]]]]]);
    rewrite ?List.filter_app; cbn [List.filter is_log negb];
    rewrite ?app_nil_r; reflexivity.
Qed.

(* ------------------------------------------------------------------ *)
(** ** Readings that are not numbers *)

(** Comparing two values fails in one way only. *)
Lemma py_gt_error (a b : value) (e : exn) : py_gt a b = Err e -> e = TypeError.
Proof.
  revert a b e. fix IH 1. intros a b e.
  destruct a as [| x | s | xs | xs | d]; destruct b as [| y | t | ys | ys | d'];
    simpl; try (intros H; inversion H; reflexivity).
  - revert xs ys. fix IHl 1. intros [| x xs] [| y ys]; simpl;
      try (intros H; inversion H; reflexivity).
    destruct (py_eq x y); [apply IHl | apply IH].
  - revert xs ys. fix IHl 1. intros [| x xs] [| y ys]; simpl;
      try (intros H; inversion H; reflexivity).
    destruct (py_eq x y); [apply IHl | apply IH].
Qed.

Lemma max_from_error (items : list value) (current : value) (e : exn) :
  max_from current items = Err e -> e = TypeError.
Proof.
  revert current. induction items as [| item rest IH]; intros current; simpl.
  - intros H. discriminate H.
  - destruct (py_gt item current) as [[|] | e'] eqn:Hgt.
    + apply IH.
    + apply IH.
    + intros H. inversion H. subst. apply (py_gt_error _ _ _ Hgt).
Qed.

Lemma not_number_split (series : list value) :
  existsb (fun v => negb (is_number v)) series = true ->
  exists pre v post,
    series = (numbers pre ++ v :: post)%list /\ forall q, v <> VNum q.
Proof.
  induction series as [| item rest IH]; simpl; intros H; [discriminate H |].
  destruct item as [| q | s | xs | xs | d];
    try (eexists [], _, rest; split; [reflexivity | intros q' Hq; discriminate Hq]).
  simpl in H. destruct (IH H) as (pre & v & post & Heq & Hv).
  exists (q :: pre), v, post. split; [rewrite Heq; reflexivity | exact Hv].
Qed.

(** X6.  If any reading of the series is not a number, the wrapped call
    raises [TypeError] and returns no summary, wherever in the series
    that reading stands. *)
Theorem non_number_reading_raises_TypeError
    (env : Env) (self : MemoryProfiler) (interval : Q) (func : Func)
    (args : list value) (kwargs : list (string * value))
    (w w2 : World) (info : MemInfo) (rv : value) :
  memory_info_at env (os_tick w) = inr info ->
  call func args kwargs (target_start interval w) = (Ok rv, w2) ->
  existsb (fun v => negb (is_number v)) (usage_series_at env (usage_tick w2)) = true ->
  fst (wrapper env self interval func args kwargs w) = Err TypeError.
Proof.
  intros Hos Hcall Hbad.
  destruct (not_number_split _ Hbad) as (pre & v & post & Hseries & Hv).
  unfold wrapper.
  rewrite (bind_ok _ _ _ _ _ (memory_info_ok env w info Hos)).
  erewrite bind_ok by reflexivity.
  erewrite bind_ok by (apply memory_usage_ok; exact Hcall).
  rewrite py_but_last_snoc, py_last_snoc.
  assert (Hfirst : exists first,
             py_first (usage_series_at env (usage_tick w2) ++ [rv]) = Ok first).
  { rewrite Hseries. destruct pre; eexists; reflexivity. }
  destruct Hfirst as [first Hfirst]. rewrite Hfirst.
  do 2 (erewrite bind_ok by reflexivity).
  destruct (py_max (usage_series_at env (usage_tick w2))) as [max_mem | e] eqn:Hmax.
  - erewrite bind_ok by reflexivity.
    unfold py_sum. rewrite Hseries, (sum_from_not_number pre v post 0 Hv).
    reflexivity.
  - erewrite bind_err by reflexivity. simpl.
    f_equal. unfold py_max in Hmax.
    destruct (usage_series_at env (usage_tick w2)) as [| s0 rest];
      [destruct pre; discriminate Hseries |].
    apply (max_from_error _ _ _ Hmax).
Qed.

Lemma non_number_reading_raises_TypeError_witness :
  fst (wrapper Demo.mixed Sample.profiler (1 # 10) Sample.answer [] [] Sample.start) =
    Err TypeError.
Proof.
  apply (non_number_reading_raises_TypeError
           Demo.mixed Sample.profiler (1 # 10) Sample.answer [] []
           Sample.start Sample.after_answer
           (mkMemInfo (100 * Sample.MB) (400 * Sample.MB)) (VNum 42));
    reflexivity.
Defined.

(* ================================================================== *)
(** ** More on the block-scope wrapper *)

(** X8.  If the memory query of [__enter__] fails, the [with] statement
    raises that [OSQueryError]; the block is not run and [__exit__] is
    not called (the clock is never read, the handle is not written). *)
Theorem enter_failure_skips_block
    (env : Env) (manager : nat) (body : nat -> M unit) (w : World) (cause : string) :
  memory_info_at env (os_tick w) = inl cause ->
  with_stmt env manager body w = (Err (OSQueryError cause), after_memory_info w).
Proof.
  intros Hos. unfold with_stmt.
  assert (Henter : __enter__ env manager w =
                     (Err (OSQueryError cause), after_memory_info w)).
  { unfold __enter__. apply bind_err. apply memory_info_err. exact Hos. }
  rewrite Henter. reflexivity.
Qed.

Lemma enter_failure_skips_block_witness :
  with_stmt Demo.denied 0 Sample.pass Sample.allocated =
    (Err (OSQueryError "AccessDenied"), after_memory_info Sample.allocated).
Proof.
  apply (enter_failure_skips_block Demo.denied 0 Sample.pass Sample.allocated
           "AccessDenied"); reflexivity.
Defined.

(** X9.  [__exit__] on a handle that was never entered raises
    [TypeError]: the clock and the memory are read, then the subtraction
    from the missing start time fails; nothing is logged and no summary
    is returned. *)
Theorem exit_before_enter_raises_TypeError
    (env : Env) (self : nat) (exc : option exn) (w : World)
    (obj : BlockProfiler.t) (info : MemInfo) :
  memory_info_at env (os_tick w) = inr info ->
  heap w !! self = Some obj ->
  BlockProfiler.start_time obj = VNone ->
  __exit__ env self exc w = (Err TypeError, after_exit_readings w).
Proof.
  intros Hos Hobj Hst.
  unfold __exit__.
  erewrite bind_ok by reflexivity.
  erewrite bind_ok by (apply memory_info_ok; exact Hos).
  erewrite bind_ok by (unfold getattrs; cbn [heap]; rewrite Hobj; reflexivity).
  rewrite Hst.
  erewrite bind_err by reflexivity.
  unfold after_exit_readings. cbn [os_tick clock_tick usage_tick heap trace].
  rewrite <- app_assoc. reflexivity.
Qed.

Lemma exit_before_enter_raises_TypeError_witness :
  __exit__ Sample.env 0 None Sample.allocated =
    (Err TypeError, after_exit_readings Sample.allocated).
Proof.
  apply (exit_before_enter_raises_TypeError
           Sample.env 0 None Sample.allocated
           (BlockProfiler.mk (1 # 10) (mkLogger false) VNone [] VNone)
           (mkMemInfo (100 * Sample.MB) (400 * Sample.MB))); reflexivity.
Defined.

(** X10.  If the memory query of [__exit__] fails, the [with] statement
    raises that [OSQueryError], whether the block returned or raised: an
    exception of the block is replaced by it, and nothing is logged. *)
Theorem exit_query_failure_replaces_outcome
    (env : Env) (manager : nat) (body : nat -> M unit)
    (w w1 w2 : World) (target : nat) (out : result unit) (cause : string) :
  __enter__ env manager w = (Ok target, w1) ->
  body target w1 = (out, w2) ->
  memory_info_at env (os_tick w2) = inl cause ->
  with_stmt env manager body w =
    (Err (OSQueryError cause), after_exit_readings w2).
Proof.
  intros Henter Hbody Hos.
  assert (Hexit : forall exc,
             __exit__ env manager exc w2 =
               (Err (OSQueryError cause), after_exit_readings w2)).
  { intros exc. unfold __exit__.
    erewrite bind_ok by reflexivity.
    erewrite bind_err by (apply memory_info_err; exact Hos).
    unfold after_exit_readings. cbn [os_tick clock_tick usage_tick heap trace].
    rewrite <- app_assoc. reflexivity. }
  unfold with_stmt. rewrite Henter, Hbody.
  destruct out as [u | e]; rewrite Hexit; reflexivity.
Qed.

Lemma exit_query_failure_replaces_outcome_witness :
  with_stmt Demo.denied_later 0 Sample.boom Sample.allocated =
    (Err (OSQueryError "AccessDenied"), after_exit_readings Sample.entered).
Proof.
  apply (exit_query_failure_replaces_outcome
           Demo.denied_later 0 Sample.boom Sample.allocated Sample.entered
           Sample.entered 0%nat (Err (WorkFailure "ValueError" "boom"))
           "AccessDenied"); reflexivity.
Defined.

(** X11.  Handles do not share state.  [profile_block] returns a
    reference that no existing handle has and leaves every existing handle
    as it is; entering or leaving one handle, whatever the outcome, leaves
    every other handle as it is. *)
Theorem handles_are_independent
    (env : Env) (self : MemoryProfiler) (interval : Q) (manager other : nat)
    (obj : BlockProfiler.t) (exc : option exn) (w : World) :
  heap w !! other = Some obj ->
  other <> manager ->
  fst (profile_block self interval w) <> Ok other /\
  heap (snd (profile_block self interval w)) !! other = Some obj /\
  heap (snd (__enter__ env manager w)) !! other = Some obj /\
  heap (snd (__exit__ env manager exc w)) !! other = Some obj.
Proof.
  intros Hobj Hne.
  pose proof (lookup_lt_Some _ _ _ Hobj) as Hlt.
  split; [| split; [| split]].
  - cbn [profile_block fst]. intros H. injection H as H. lia.
  - cbn [profile_block snd with_heap heap].
    rewrite lookup_app_l by exact Hlt. exact Hobj.
  - unfold __enter__, bind, setattrs, with_heap, ret.
    pose proof (keeps_store_memory_info env w) as Hk.
    destruct (memory_info env w) as [[info | e] w1]; simpl in Hk;
      [| simpl; rewrite Hk; exact Hobj].
    destruct (heap w1 !! manager) as [o1 |] eqn:Hm;
      [| simpl; rewrite Hk; exact Hobj].
    cbn [time_time heap os_tick clock_tick usage_tick trace].
    rewrite list_lookup_insert_eq
      by (rewrite Hk; rewrite Hk in Hm; apply (lookup_lt_Some _ _ _ Hm)).
    cbn [snd heap].
    rewrite list_insert_insert_eq.
    rewrite list_lookup_insert_ne by (intros H; apply Hne; symmetry; exact H).
    rewrite Hk. exact Hobj.
  - rewrite (exit_keeps_store env manager exc w). exact Hobj.
Qed.

Lemma handles_are_independent_witness :
  fst (profile_block Sample.quiet (1 # 10) Demo.crowded) <> Ok 0%nat /\
  heap (snd (profile_block Sample.quiet (1 # 10) Demo.crowded)) !! 0%nat =
    Some (BlockProfiler.mk (1 # 2) (mkLogger true) (VNum 7) [] (VNum 3)) /\
  heap (snd (__enter__ Sample.env 1 Demo.crowded)) !! 0%nat =
    Some (BlockProfiler.mk (1 # 2) (mkLogger true) (VNum 7) [] (VNum 3)) /\
  heap (snd (__exit__ Sample.env 1 None Demo.crowded)) !! 0%nat =
    Some (BlockProfiler.mk (1 # 2) (mkLogger true) (VNum 7) [] (VNum 3)).
Proof.
  apply (handles_are_independent
           Sample.env Sample.quiet (1 # 10) 1%nat 0%nat
           (BlockProfiler.mk (1 # 2) (mkLogger true) (VNum 7) [] (VNum 3))
           None Demo.crowded); [reflexivity | lia].
Defined.

(** X12.  A handle can be entered again: whatever start readings it
    held are overwritten by the new memory and clock readings, while its
    interval, logger and measurements list stay as they were. *)
Theorem reentering_overwrites_start_readings
    (env : Env) (self : nat) (w : World) (obj : BlockProfiler.t) (info : MemInfo) :
  memory_info_at env (os_tick w) = inr info ->
  heap w !! self = Some obj ->
  fst (__enter__ env self w) = Ok self /\
  heap (snd (__enter__ env self w)) !! self =
    Some (BlockProfiler.mk (BlockProfiler.interval obj) (BlockProfiler.logger obj)
            (VNum (megabytes (rss info))) (BlockProfiler.measurements obj)
            (VNum (time_at env (clock_tick w)))) /\
  length (heap (snd (__enter__ env self w))) = length (heap w).
Proof.
  intros Hos Hobj.
  rewrite (enter_run env self w obj info Hos Hobj).
  cbn [fst snd heap].
  split; [reflexivity |]. split.
  - apply list_lookup_insert_eq. apply (lookup_lt_Some _ _ _ Hobj).
  - apply length_insert.
Qed.

Lemma reentering_overwrites_start_readings_witness :
  fst (__enter__ Sample.env 0 Demo.busy) = Ok 0%nat /\
  heap (snd (__enter__ Sample.env 0 Demo.busy)) !! 0%nat =
    Some (BlockProfiler.mk (1 # 2) (mkLogger true)
            (VNum (megabytes (100 * Sample.MB))) [] (VNum 0)) /\
  length (heap (snd (__enter__ Sample.env 0 Demo.busy))) = length (heap Demo.busy).
Proof.
  apply (reentering_overwrites_start_readings
           Sample.env 0 Demo.busy
           (BlockProfiler.mk (1 # 2) (mkLogger true) (VNum 7) [] (VNum 3))
           (mkMemInfo (100 * Sample.MB) (400 * Sample.MB))); reflexivity.
Defined.

(** X13.  When both memory queries succeed and the block leaves the
    handle as it found it, [with profiler.profile_block(interval) as
    block: ...] completes normally whatever the block did, raise or
    return: the statement yields nothing, and the world it leaves is the
    block's world plus the exit readings and the log lines. *)
Theorem profiled_block_completes
    (env : Env) (self : MemoryProfiler) (interval : Q) (body : nat -> M unit)
    (w w2 : World) (out : result unit) (info1 info2 : MemInfo) :
  memory_info_at env (os_tick w) = inr info1 ->
  body (length (heap w))
       (snd (__enter__ env (length (heap w)) (snd (profile_block self interval w)))) =
    (out, w2) ->
  heap w2 !! length (heap w) =
    Some (BlockProfiler.mk interval (logger self) (VNum (megabytes (rss info1))) []
            (VNum (time_at env (clock_tick w)))) ->
  memory_info_at env (os_tick w2) = inr info2 ->
  profiled_block env self interval body w =
    (Ok tt,
     mkWorld (S (os_tick w2)) (S (clock_tick w2)) (usage_tick w2) (heap w2)
       (trace w2 ++ [EvTime; EvMemoryInfo] ++
        logged (logger self)
          (block_log_lines (megabytes (rss info1)) (megabytes (rss info2))
             (time_at env (clock_tick w)) (time_at env (clock_tick w2))))).
Proof.
  intros Hos1 Hbody Hobj2 Hos2.
  set (manager := length (heap w)) in *.
  set (fresh := BlockProfiler.mk interval (logger self) VNone [] VNone).
  set (w0 := with_heap (heap w ++ [fresh]) w).
  assert (Hobj0 : heap w0 !! manager = Some fresh).
  { unfold w0, with_heap. cbn [heap]. apply list_lookup_middle. reflexivity. }
  pose proof (enter_run env manager w0 fresh info1 Hos1 Hobj0) as Henter.
  change (snd (profile_block self interval w)) with w0 in Hbody.
  rewrite Henter in Hbody. cbn [snd] in Hbody.
  pose proof (fun exc =>
                exit_run env manager exc w2 _ info2 _ _ Hos2 Hobj2 eq_refl eq_refl)
    as Hexit.
  cbn [BlockProfiler.logger] in Hexit.
  unfold profiled_block.
  erewrite bind_ok by (apply profile_block_run).
  fold fresh. fold w0. fold manager.
  unfold with_stmt. rewrite Henter, Hbody.
  destruct out as [u | e]; rewrite Hexit; reflexivity.
Qed.

Lemma profiled_block_completes_witness :
  profiled_block Sample.grown_150 Sample.quiet (1 # 10) Sample.boom Sample.start =
    (Ok tt,
     mkWorld (S (os_tick Sample.entered)) (S (clock_tick Sample.entered))
       (usage_tick Sample.entered) (heap Sample.entered)
       (trace Sample.entered ++ [EvTime; EvMemoryInfo] ++
        logged (logger Sample.quiet)
          (block_log_lines (megabytes (100 * Sample.MB)) (megabytes (150 * Sample.MB))
             (time_at Sample.grown_150 (clock_tick Sample.start))
             (time_at Sample.grown_150 (clock_tick Sample.entered))))).
Proof.
  apply (profiled_block_completes
           Sample.grown_150 Sample.quiet (1 # 10) Sample.boom
           Sample.start Sample.entered (Err (WorkFailure "ValueError" "boom"))
           (mkMemInfo (100 * Sample.MB) (400 * Sample.MB))
           (mkMemInfo (150 * Sample.MB) (400 * Sample.MB))); reflexivity.
Defined.

(** X14.  The scope never writes to the handle after the block: when
    the [with] statement is over, whatever its outcome, the object store
    is the store as the block left it. *)
Theorem scope_leaves_store_as_block_left_it
    (env : Env) (manager : nat) (body : nat -> M unit)
    (w w1 w2 : World) (target : nat) (out : result unit) :
  __enter__ env manager w = (Ok target, w1) ->
  body target w1 = (out, w2) ->
  heap (snd (with_stmt env manager body w)) = heap w2.
Proof. apply with_stmt_store. Qed.

Lemma scope_leaves_store_as_block_left_it_witness :
  heap (snd (with_stmt Sample.grown_150 0 Sample.boom Sample.allocated)) =
    heap Sample.entered.
Proof.
  apply (scope_leaves_store_as_block_left_it
           Sample.grown_150 0 Sample.boom Sample.allocated Sample.entered
           Sample.entered 0%nat (Err (WorkFailure "ValueError" "boom")));
    reflexivity.
Defined.

(* ================================================================== *)
(** ** More on the snapshot, the summary and the constructor *)

(** X15.  A successful snapshot has exactly the keys "rss", "vms" and
    "percent".  For byte counts a double holds exactly (below 2^53),
    "rss" and "vms" are the counts in units of 2^20 bytes: each times
    1048576 is the byte count the operating system gave, and neither is
    negative; "percent" is the operating system's figure unchanged. *)
Theorem snapshot_reports_megabytes
    (env : Env) (self : MemoryProfiler) (w : World) (info : MemInfo) (pct : Q) :
  memory_info_at env (os_tick w) = inr info ->
  memory_percent_at env (S (os_tick w)) = inr pct ->
  (0 <= rss info < 2 ^ 53)%Z ->
  (0 <= vms info < 2 ^ 53)%Z ->
  exists d w' resident virtual,
    memory_snapshot env self w = (Ok d, w') /\
    dict_get "rss" d = Some (VNum resident) /\
    dict_get "vms" d = Some (VNum virtual) /\
    dict_get "percent" d = Some (VNum pct) /\
    resident * 1048576 == inject_Z (rss info) /\
    virtual * 1048576 == inject_Z (vms info) /\
    0 <= resident /\
    0 <= virtual /\
    (forall key, key <> "rss"%string -> key <> "vms"%string ->
                 key <> "percent"%string -> dict_get key d = None).
Proof.
  intros Hos Hpct [Hrss _] [Hvms _].
  assert (Hmb : forall n, megabytes n * 1048576 == inject_Z n).
  { intros n. unfold megabytes. field. }
  assert (Hpos : forall n, (0 <= n)%Z -> 0 <= megabytes n).
  { intros n Hn. pose proof (Hmb n) as H.
    assert (0 <= inject_Z n) by (change 0 with (inject_Z 0); rewrite <- Zle_Qle; exact Hn).
    lra. }
  unfold memory_snapshot.
  rewrite (bind_ok _ _ _ _ _ (memory_info_ok env w info Hos)).
  erewrite bind_ok
    by (unfold memory_percent; cbn [os_tick]; rewrite Hpct; reflexivity).
  do 4 eexists. split; [reflexivity |].
  split; [reflexivity |]. split; [reflexivity |]. split; [reflexivity |].
  split; [apply Hmb |]. split; [apply Hmb |].
  split; [apply Hpos; exact Hrss |]. split; [apply Hpos; exact Hvms |].
  intros key H1 H2 H3. cbn [dict_get assoc_get].
  destruct (String.eqb_spec "rss" key) as [E | _]; [congruence |].
  destruct (String.eqb_spec "vms" key) as [E | _]; [congruence |].
  destruct (String.eqb_spec "percent" key) as [E | _]; [congruence |].
  reflexivity.
Qed.

Lemma snapshot_reports_megabytes_witness :
  exists d w' resident virtual,
    memory_snapshot Sample.env Sample.profiler Sample.start = (Ok d, w') /\
    dict_get "rss" d = Some (VNum resident) /\
    dict_get "vms" d = Some (VNum virtual) /\
    dict_get "percent" d = Some (VNum (5 # 2)) /\
    resident * 1048576 == inject_Z (100 * Sample.MB) /\
    virtual * 1048576 == inject_Z (400 * Sample.MB) /\
    0 <= resident /\
    0 <= virtual /\
    (forall key, key <> "rss"%string -> key <> "vms"%string ->
                 key <> "percent"%string -> dict_get key d = None).
Proof.
  apply (snapshot_reports_megabytes
           Sample.env Sample.profiler Sample.start
           (mkMemInfo (100 * Sample.MB) (400 * Sample.MB)) (5 # 2));
    [reflexivity | reflexivity | vm_compute; split; [discriminate | reflexivity]
     | vm_compute; split; [discriminate | reflexivity]].
Defined.

(** X16.  A summary is returned only for a non-empty series of numbers:
    whenever the wrapped call returns, the initial query had succeeded,
    the function had returned, and every reading the sampler delivered was
    a number, with at least one of them. *)
Theorem summary_only_for_numeric_series
    (env : Env) (self : MemoryProfiler) (interval : Q) (func : Func)
    (args : list value) (kwargs : list (string * value))
    (w w' : World) (v : value) :
  wrapper env self interval func args kwargs w = (Ok v, w') ->
  exists info rv w2 m ms,
    memory_info_at env (os_tick w) = inr info /\
    call func args kwargs (target_start interval w) = (Ok rv, w2) /\
    usage_series_at env (usage_tick w2) = numbers (m :: ms).
Proof. apply wrapper_returns_only_on_numbers. Qed.

Lemma summary_only_for_numeric_series_witness :
  exists info rv w2 m ms,
    memory_info_at Sample.env (os_tick Sample.start) = inr info /\
    call Sample.answer [] [] (target_start (1 # 10) Sample.start) = (Ok rv, w2) /\
    usage_series_at Sample.env (usage_tick w2) = numbers (m :: ms).
Proof.
  apply (summary_only_for_numeric_series
           Sample.env Sample.profiler (1 # 10) Sample.answer [] [] Sample.start
           (snd (wrapper Sample.env Sample.profiler (1 # 10) Sample.answer [] []
                   Sample.start))
           (match fst (wrapper Sample.env Sample.profiler (1 # 10) Sample.answer
                         [] [] Sample.start) with
            | Ok v => v
            | Err _ => VNone
            end)).
  vm_compute. reflexivity.
Defined.

(** X17.  Constructing profilers one after the other leaves the module
    logger as the last construction alone would: the level is the last
    one given, and the handler added by the first construction is not
    added again.  Handlers the logger already had are kept and none is
    added to them. *)
Theorem last_construction_wins (l1 l2 : Z) (lg : Logging.State) :
  MemoryProfiler__init__ l2 (MemoryProfiler__init__ l1 lg) =
    MemoryProfiler__init__ l2 lg /\
  Logging.level (MemoryProfiler__init__ l2 (MemoryProfiler__init__ l1 lg)) = l2 /\
  Logging.handlers (MemoryProfiler__init__ l2 (MemoryProfiler__init__ l1 lg)) =
    Logging.handlers (MemoryProfiler__init__ l1 lg) /\
  (1 <= length (Logging.handlers (MemoryProfiler__init__ l1 lg)))%nat /\
  (Logging.handlers lg <> [] ->
   Logging.handlers (MemoryProfiler__init__ l1 lg) = Logging.handlers lg).
Proof.
  destruct lg as [lvl hs]. unfold MemoryProfiler__init__.
  destruct hs as [| h hs]; cbn; repeat split; try lia; try congruence.
Qed.
